(** * Formular: the validation and state contract of the Tkinter form

    A shallow embedding of [src/Formular.py]: the record
    [RegistrationData], the validator [parse_form_data], the submit flow
    [handle_submit] and [reset_form], the form that [build_form_fields]
    and [build_comments_field] create and the event loop that [main]
    starts on it, together with the parts of Python's
    [str] and [int] and of Tkinter's [StringVar], [Text] and [messagebox]
    that these functions call.

    Text is modelled by [string]; a character stands for the code point
    of the same number, so the model covers the code points 0..255 of
    Python's [str]. *)

From Stdlib Require Import Ascii ZArith.
From Stdlib Require Decimal DecimalString DecimalPos.
From stdpp Require Import base strings gmap.

Open Scope string_scope.
Open Scope Z_scope.

(** ** Python's [str] *)

Module Str.

(** [str.isspace] on one character. Below 256 the whitespace code
    points are 9..13, 28..32, 133 and 160. *)
Definition isspace (c : ascii) : bool :=
  let n := N_of_ascii c in
  ((9 <=? n) && (n <=? 13) || (28 <=? n) && (n <=? 32)
   || (n =? 133) || (n =? 160))%N.

(** Removal of the leading characters that satisfy [p]. *)
Fixpoint lstrip_by (p : ascii -> bool) (s : string) : string :=
  match s with
  | EmptyString => EmptyString
  | String c s' => if p c then lstrip_by p s' else s
  end.

(** Removal of the trailing characters that satisfy [p]. *)
Fixpoint rstrip_by (p : ascii -> bool) (s : string) : string :=
  match s with
  | EmptyString => EmptyString
  | String c s' =>
      match rstrip_by p s' with
      | EmptyString => if p c then EmptyString else String c EmptyString
      | r => String c r
      end
  end.

Definition strip_by (p : ascii -> bool) (s : string) : string :=
  rstrip_by p (lstrip_by p s).

(** [s.strip()] *)
Definition strip (s : string) : string := strip_by isspace s.

(** Truth value of a string: [bool(s)], false on the empty string only. *)
Definition truthy (s : string) : bool :=
  match s with
  | EmptyString => false
  | String _ _ => true
  end.

(** [all(l)] on a list of strings. *)
Definition all (l : list string) : bool := forallb truthy l.

(** [s.startswith(sub)] *)
Fixpoint startswith (sub s : string) : bool :=
  match sub, s with
  | EmptyString, _ => true
  | String _ _, EmptyString => false
  | String a sub', String b s' => Ascii.eqb a b && startswith sub' s'
  end.

(** [sub in s]: [sub] occurs in [s] as a substring. *)
Fixpoint contains (sub s : string) : bool :=
  startswith sub s ||
  match s with
  | EmptyString => false
  | String _ s' => contains sub s'
  end.

End Str.

(** ** Python's [int] applied to a string *)

(** The interpreter setting read by [int]: [sys.get_int_max_str_digits()].
    The value 0 switches the limit off; CPython's default is 4300. *)
Class Interpreter := { int_max_str_digits : nat }.

Module Int.

(** The whitespace [int] accepts around a literal: the ASCII
    whitespace 9..13 and 32, and the two whitespace code points 133 and
    160 above 127 (28..31 are whitespace for [str.isspace], not for
    [int]). *)
Definition isspace (c : ascii) : bool :=
  let n := N_of_ascii c in
  ((9 <=? n) && (n <=? 13) || (n =? 32) || (n =? 133) || (n =? 160))%N.

(** Value of a decimal digit. Below 256 the decimal digits are
    ["0"] .. ["9"]. *)
Definition digit_value (c : ascii) : option Z :=
  let n := N_of_ascii c in
  if ((48 <=? n) && (n <=? 57))%N then Some (Z.of_N n - 48) else None.

(** Digits with single underscores between them. [prev] says that the
    previous position does not hold a digit (the start, or an
    underscore), [k] counts the digits read, [acc] is their value. *)
Fixpoint digits (s : string) (prev : bool) (k : nat) (acc : Z)
  : option (Z * nat) :=
  match s with
  | EmptyString => if prev then None else Some (acc, k)
  | String c s' =>
      if Ascii.eqb c "_" then
        if prev then None else digits s' true k acc
      else
        match digit_value c with
        | Some d => digits s' false (S k) (10 * acc + d)
        | None => None
        end
  end.

(** A literal of more than 640 digits is checked against the
    interpreter's limit. *)
Definition str_digits_check_threshold : nat := 640.

Definition exceeds_limit `{py : Interpreter} (k : nat) : bool :=
  (str_digits_check_threshold <? k)%nat
  && (0 <? int_max_str_digits)%nat
  && (int_max_str_digits <? k)%nat.

(** Sign and digits of the literal once the whitespace is removed. *)
Definition split_sign (s : string) : bool * string :=
  match s with
  | String "-" r => (true, r)
  | String "+" r => (false, r)
  | _ => (false, s)
  end.

(** [int(s)] in base 10; [None] stands for the [ValueError] that [int]
    raises. *)
Definition int `{py : Interpreter} (s : string) : option Z :=
  let (neg, body) := split_sign (Str.strip_by isspace s) in
  match digits body true 0 0 with
  | Some (n, k) =>
      if exceeds_limit k then None
      else Some (if neg then - n else n)
  | None => None
  end.

End Int.

(** CPython as it is started without options. *)
Definition cpython_default : Interpreter := {| int_max_str_digits := 4300 |}.

(** ** The data model *)

Record RegistrationData := {
  first_name : string;
  last_name : string;
  email : string;
  age : Z;
  comments : string
}.

(** The exceptions the program can raise: [ValueError] with its message,
    and the [KeyError] of a dictionary access. *)
Inductive exn :=
| ValueError (msg : string)
| KeyError (key : string).

(** The three validation failures are the three [ValueError]s that
    [parse_form_data] raises, told apart by their message. *)
Definition MissingRequiredField : exn :=
  ValueError ("Bitte f" ++ String "252" "llen Sie alle Pflichtfelder aus.").
Definition InvalidEmailFormat : exn :=
  ValueError ("Bitte geben Sie eine g" ++ String "252" "ltige E-Mail-Adresse ein.").
Definition InvalidAge : exn :=
  ValueError "Alter muss eine positive Zahl sein.".

(** ** The GUI collaborator *)

(** A call of [messagebox.showerror] or [messagebox.showinfo]. *)
Inductive Dialog :=
| showerror_call (title message : string)
| showinfo_call (title message : string).

(** The state the functions work on: [variables] maps each label to the
    current content of its [StringVar]; [text_widget] is the content of
    the comment box [comments_frame.text_widget], without the newline Tk
    keeps at its end; [dialogs] lists the dialogs shown so far. *)
Record Gui := {
  variables : gmap string string;
  text_widget : string;
  dialogs : list Dialog
}.

Inductive result (A : Type) :=
| Return (a : A)
| Raise (e : exn).
Arguments Return {A} a.
Arguments Raise {A} e.

(** Computations on the GUI: a result or an exception, and the state
    left behind. An exception does not undo what was done before it. *)
Definition M (A : Type) : Type := Gui -> result A * Gui.

Definition ret {A} (a : A) : M A := fun g => (Return a, g).

Definition raise {A} (e : exn) : M A := fun g => (Raise e, g).

Definition bind {A B} (m : M A) (k : A -> M B) : M B :=
  fun g =>
    match m g with
    | (Return a, g') => k a g'
    | (Raise e, g') => (Raise e, g')
    end.

Declare Scope gui_scope.
Delimit Scope gui_scope with gui.
Notation "'let*' x ':=' m 'in' k" := (bind m (fun x => k))
  (at level 10, x name, m at level 100, k at level 200) : gui_scope.
Notation "m ';;' k" := (bind m (fun _ => k))
  (at level 100, k at level 200, right associativity) : gui_scope.

(** [try: x = body / except ValueError as error: handler / else: orelse]
    Only a [ValueError] is caught; any other exception goes on. *)
Definition try_except_ValueError {A B}
    (body : M A) (handler : string -> M B) (orelse : A -> M B) : M B :=
  fun g =>
    match body g with
    | (Return a, g') => orelse a g'
    | (Raise (ValueError msg), g') => handler msg g'
    | (Raise e, g') => (Raise e, g')
    end.

(** [variables[label].get()] *)
Definition StringVar_get (label : string) : M string :=
  fun g =>
    match variables g !! label with
    | Some v => (Return v, g)
    | None => (Raise (KeyError label), g)
    end.

(** [comments_frame.text_widget.get("1.0", END)]: the content, and the
    newline at its end. *)
Definition Text_get : M string :=
  fun g => (Return (text_widget g ++ String "010" ""), g).

(** [variables[label].set(v)] *)
Definition StringVar_set (label v : string) : M unit :=
  fun g =>
    (Return tt,
     {| variables := <[label := v]> (variables g);
        text_widget := text_widget g;
        dialogs := dialogs g |}).

(** [for x in l: body(x)] *)
Fixpoint for_each {A} (l : list A) (body : A -> M unit) : M unit :=
  match l with
  | [] => ret tt
  | x :: l' => (body x ;; for_each l' body)%gui
  end.

(** The labels of the dictionary [variables]; each stands for the
    [StringVar] stored under it. *)
Definition labels : M (list string) :=
  fun g => (Return (elements (dom (variables g))), g).

(** [comments_frame.text_widget.delete("1.0", END)] *)
Definition Text_delete : M unit :=
  fun g =>
    (Return tt,
     {| variables := variables g; text_widget := ""; dialogs := dialogs g |}).

Definition show (d : Dialog) : M unit :=
  fun g =>
    (Return tt,
     {| variables := variables g;
        text_widget := text_widget g;
        dialogs := dialogs g ++ [d] |}).

(** [messagebox.showerror(title, message)] *)
Definition showerror (title message : string) : M unit :=
  show (showerror_call title message).

(** [messagebox.showinfo(title, message)] *)
Definition showinfo (title message : string) : M unit :=
  show (showinfo_call title message).

(** ** The program *)

Section Program.
Context `{py : Interpreter}.
Open Scope gui_scope.

Definition parse_form_data : M RegistrationData :=
  let* vorname := StringVar_get "Vorname" in
  let first_name := Str.strip vorname in
  let* nachname := StringVar_get "Nachname" in
  let last_name := Str.strip nachname in
  let* e_mail := StringVar_get "E-Mail" in
  let email := Str.strip e_mail in
  let* alter := StringVar_get "Alter" in
  let age_text := Str.strip alter in
  let* content := Text_get in
  let comments := Str.strip content in
  if negb (Str.all [first_name; last_name; email; age_text]) then
    raise MissingRequiredField
  else if negb (Str.contains "@" email) || negb (Str.contains "." email) then
    raise InvalidEmailFormat
  else
    match Int.int age_text with
    | Some age =>
        if age <=? 0 then raise InvalidAge
        else
          ret {| first_name := first_name;
                 last_name := last_name;
                 email := email;
                 age := age;
                 comments := comments |}
    | None => raise InvalidAge
    end.

(** The text of the confirmation dialog. *)
Definition success_message (data : RegistrationData) : string :=
  "Vielen Dank, " ++ first_name data ++ " " ++ last_name data ++ "!"
  ++ String "010" (String "010" "")
  ++ "Wir haben Ihre Daten erhalten und melden uns unter "
  ++ email data ++ ".".

Definition reset_form : M unit :=
  let* ls := labels in
  for_each ls (fun variable => StringVar_set variable "") ;;
  Text_delete.

Definition handle_submit : M unit :=
  try_except_ValueError parse_form_data
    (fun error => showerror "Fehler" error)
    (fun data =>
       showinfo "Erfolg" (success_message data) ;;
       reset_form).

End Program.

(** The form as [build_form_fields] and [build_comments_field] create
    it: four empty variables and an empty comment box. *)
Definition build_form_fields : gmap string string :=
  {[ "Vorname" := ""; "Nachname" := ""; "E-Mail" := ""; "Alter" := "" ]}.

Definition initial_gui : Gui :=
  {| variables := build_form_fields; text_widget := ""; dialogs := [] |}.

(** The user types [v] into the entry labelled [label]. *)
Definition type_entry (label v : string) (g : Gui) : Gui :=
  {| variables := <[label := v]> (variables g);
     text_widget := text_widget g;
     dialogs := dialogs g |}.

(** The user types [v] into the comment box. *)
Definition type_comments (v : string) (g : Gui) : Gui :=
  {| variables := variables g; text_widget := v; dialogs := dialogs g |}.

(** The form filled with the five raw inputs. *)
Definition filled (fn ln em ag cm : string) : Gui :=
  type_comments cm
    (type_entry "Alter" ag
       (type_entry "E-Mail" em
          (type_entry "Nachname" ln
             (type_entry "Vorname" fn initial_gui)))).

(** ** The window of [main] *)

(** What the user does with the window that [main] builds: edit the
    entry of a label, edit the comment box, press the button "Absenden"
    or press the button "Zurücksetzen". *)
Inductive Event :=
| Edit_entry (label text : string)
| Edit_comments (text : string)
| Press_submit
| Press_reset.

(** Tk runs the command of a button. An exception that the command
    raises is reported ([report_callback_exception]) and the loop goes
    on from the state the command left; [snd w] lists the exceptions
    reported so far. *)
Definition run_command (command : M unit) (w : Gui * list exn)
  : Gui * list exn :=
  match command (fst w) with
  | (Return _, g') => (g', snd w)
  | (Raise e, g') => (g', (snd w ++ [e])%list)
  end.

Section Main.
Context `{py : Interpreter}.

(** One event of the loop. There is an entry for each label of
    [variables] and for no other label; the two buttons run
    [handle_submit] and [reset_form]. *)
Definition dispatch (w : Gui * list exn) (ev : Event) : Gui * list exn :=
  match ev with
  | Edit_entry label text =>
      match variables (fst w) !! label with
      | Some _ => (type_entry label text (fst w), snd w)
      | None => w
      end
  | Edit_comments text => (type_comments text (fst w), snd w)
  | Press_submit => run_command handle_submit w
  | Press_reset => run_command reset_form w
  end.

(** [window.mainloop()] on the events of one session. *)
Definition mainloop (evs : list Event) (w : Gui * list exn)
  : Gui * list exn :=
  foldl dispatch w evs.

(** [main()]: the window is built, then the loop runs. *)
Definition main (evs : list Event) : Gui * list exn :=
  mainloop evs (initial_gui, []).

End Main.

(** The decimal numeral of an integer, as [str(n)] writes it: the digits
    without leading zero, behind a minus sign when [n] is negative. *)
Definition decimal_numeral (n : Z) : string :=
  DecimalString.NilZero.string_of_int (Z.to_int n).

(** The ten decimal digits and their values. *)
Definition decimal_digits : list (ascii * Z) :=
  [("0"%char, 0); ("1"%char, 1); ("2"%char, 2); ("3"%char, 3); ("4"%char, 4);
   ("5"%char, 5); ("6"%char, 6); ("7"%char, 7); ("8"%char, 8); ("9"%char, 9)].

Definition decimal_digit (c : ascii) (d : Z) : Prop := In (c, d) decimal_digits.

(** [digit_string s v k]: the text [s] is made of [k] decimal digits,
    with at most one underscore between two digits and none elsewhere,
    and [v] is the number the digits write in base 10. *)
Inductive digit_string : string -> Z -> nat -> Prop :=
| digit_first c d :
    decimal_digit c d ->
    digit_string (String c EmptyString) d 1
| digit_next s v k c d :
    digit_string s v k ->
    decimal_digit c d ->
    digit_string (s ++ String c EmptyString) (10 * v + d) (S k)
| digit_after_underscore s v k c d :
    digit_string s v k ->
    decimal_digit c d ->
    digit_string (s ++ String "_" (String c EmptyString)) (10 * v + d) (S k).

(** [int_literal s n k]: the text [s] is a base-10 literal of the
    integer [n] with [k] digits: a digit string, or a sign and a digit
    string. *)
Inductive int_literal : string -> Z -> nat -> Prop :=
| literal_unsigned s v k : digit_string s v k -> int_literal s v k
| literal_plus s v k : digit_string s v k -> int_literal (String "+" s) v k
| literal_minus s v k : digit_string s v k -> int_literal (String "-" s) (- v) k.

(** A literal of [k] digits falls under no limit of the interpreter:
    it has at most 640 digits, or the limit is switched off, or the
    limit is at least [k]. *)
Definition within_digit_limit `{py : Interpreter} (k : nat) : Prop :=
  (k <= 640 \/ int_max_str_digits = 0 \/ k <= int_max_str_digits)%nat.

(** The text of [k] digits ["1"]. *)
Fixpoint ones (k : nat) : string :=
  match k with
  | O => EmptyString
  | S k' => String "1" (ones k')
  end.

(** The labels in the order [parse_form_data] reads them. *)
Definition required_labels : list string :=
  ["Vorname"; "Nachname"; "E-Mail"; "Alter"].

(** The first label of the reading order that [variables] lacks. *)
Definition first_missing (g : Gui) : option string :=
  List.find (fun k => bool_decide (variables g !! k = None)) required_labels.

(** The number of times "Absenden" is pressed. *)
Fixpoint submissions (evs : list Event) : nat :=
  match evs with
  | [] => 0%nat
  | Press_submit :: evs' => S (submissions evs')
  | _ :: evs' => submissions evs'
  end.

(** ** Vocabulary of the specification *)

(** The character [c] occurs in [s]. *)
Fixpoint occurs (c : ascii) (s : string) : Prop :=
  match s with
  | EmptyString => False
  | String a s' => a = c \/ occurs c s'
  end.

(** [s] is empty or consists of whitespace only. *)
Definition blank (s : string) : Prop :=
  forall c, occurs c s -> Str.isspace c = true.

(** The characters of the literals [int] reads: digits, signs, the
    underscore and the whitespace around the literal. A text with any
    other character is not numeric. *)
Definition numeric_char (c : ascii) : bool :=
  match Int.digit_value c with
  | Some _ => true
  | None =>
      Ascii.eqb c "+" || Ascii.eqb c "-" || Ascii.eqb c "_" || Int.isspace c
  end.

(** The four required raw fields of [g]. *)
Definition raw_fields (g : Gui) (fn ln em ag : string) : Prop :=
  variables g !! "Vorname" = Some fn /\
  variables g !! "Nachname" = Some ln /\
  variables g !! "E-Mail" = Some em /\
  variables g !! "Alter" = Some ag.

(** Two forms hold the same four required entries (each present with
    the same content, or absent from both). *)
Definition same_entries (g1 g2 : Gui) : Prop :=
  variables g1 !! "Vorname" = variables g2 !! "Vorname" /\
  variables g1 !! "Nachname" = variables g2 !! "Nachname" /\
  variables g1 !! "E-Mail" = variables g2 !! "E-Mail" /\
  variables g1 !! "Alter" = variables g2 !! "Alter".

(** The form once every entry and the comment box are empty. *)
Definition cleared (g : Gui) : Gui :=
  {| variables := (fun _ : string => "") <$> variables g;
     text_widget := "";
     dialogs := dialogs g |}.

(** The outcome of a validation without its payload: success, or the
    exception raised. *)
Definition outcome_tag {A} (r : result A) : option exn :=
  match r with
  | Return _ => None
  | Raise e => Some e
  end.

(** * Properties *)

(** ** Strings *)

Lemma lstrip_by_blank p s :
  Str.lstrip_by p s = "" <-> (forall c, occurs c s -> p c = true).
Proof.
  induction s as [|a s IH]; simpl.
  - split; [intros _ c [] | reflexivity].
  - destruct (p a) eqn:Hp.
    + rewrite IH. split.
      * intros Hs c [<-|Hc]; [exact Hp | exact (Hs c Hc)].
      * intros Hs c Hc. apply Hs. now right.
    + split; [discriminate|].
      intros Hs. rewrite (Hs a) in Hp; [discriminate | now left].
Qed.

Lemma rstrip_by_blank p s :
  Str.rstrip_by p s = "" <-> (forall c, occurs c s -> p c = true).
Proof.
  induction s as [|a s IH]; simpl.
  - split; [intros _ c [] | reflexivity].
  - destruct (Str.rstrip_by p s) eqn:Hr.
    + destruct (p a) eqn:Hp.
      * split; [|reflexivity].
        intros _ c [<-|Hc]; [exact Hp|]. now apply IH.
      * split; [discriminate|].
        intros Hs. rewrite (Hs a) in Hp; [discriminate | now left].
    + split; [discriminate|].
      intros Hs. enough (String a0 s0 = "") by discriminate.
      apply IH. intros c Hc. apply Hs. now right.
Qed.

Lemma lstrip_by_head p s a t :
  Str.lstrip_by p s = String a t -> p a = false.
Proof.
  induction s as [|b s IH]; simpl; [discriminate|].
  destruct (p b) eqn:Hp; [exact IH|].
  intros [= <- _]. exact Hp.
Qed.

Lemma strip_by_blank p s :
  Str.strip_by p s = "" <-> (forall c, occurs c s -> p c = true).
Proof.
  unfold Str.strip_by. rewrite rstrip_by_blank. split.
  - intros Hs. apply lstrip_by_blank.
    destruct (Str.lstrip_by p s) as [|a t] eqn:Hl; [reflexivity|].
    pose proof (lstrip_by_head _ _ _ _ Hl) as Ha.
    rewrite (Hs a) in Ha; [discriminate | now left].
  - intros Hs. apply lstrip_by_blank in Hs. rewrite Hs. intros c [].
Qed.

Lemma strip_blank s : Str.strip s = "" <-> blank s.
Proof. apply strip_by_blank. Qed.

Lemma truthy_strip s : Str.truthy (Str.strip s) = false <-> blank s.
Proof.
  rewrite <- strip_blank.
  destruct (Str.strip s); simpl; split; congruence.
Qed.

Lemma truthy_strip_true s : Str.truthy (Str.strip s) = true <-> ~ blank s.
Proof.
  rewrite <- truthy_strip. destruct (Str.truthy (Str.strip s)); split; congruence.
Qed.

Lemma rstrip_by_snoc p s a :
  p a = true -> Str.rstrip_by p (s ++ String a "") = Str.rstrip_by p s.
Proof.
  intros Hp. induction s as [|b s IH]; simpl.
  - now rewrite Hp.
  - now rewrite IH.
Qed.

Lemma strip_by_snoc p s a :
  p a = true -> Str.strip_by p (s ++ String a "") = Str.strip_by p s.
Proof.
  intros Hp. unfold Str.strip_by. induction s as [|b s IH]; simpl.
  - now rewrite Hp.
  - destruct (p b); [exact IH|].
    change (String b (s ++ String a "")) with (String b s ++ String a "").
    now apply rstrip_by_snoc.
Qed.

(** The newline that [Text_get] appends is removed by [strip]. *)
Lemma strip_newline s : Str.strip (s ++ String "010" "") = Str.strip s.
Proof. now apply strip_by_snoc. Qed.

Lemma contains_char c s :
  Str.contains (String c "") s = true <-> occurs c s.
Proof.
  induction s as [|a s IH]; simpl.
  - split; [discriminate | intros []].
  - rewrite orb_true_iff, andb_true_r, IH, Ascii.eqb_eq.
    split; (intros [Ha|Hs]; [left; congruence | now right]).
Qed.

Lemma contains_char_false c s :
  Str.contains (String c "") s = false <-> ~ occurs c s.
Proof.
  rewrite <- contains_char.
  destruct (Str.contains (String c "") s); split; congruence.
Qed.

Lemma all_four a b c d :
  Str.all [a; b; c; d] = true <->
  Str.truthy a = true /\ Str.truthy b = true /\
  Str.truthy c = true /\ Str.truthy d = true.
Proof.
  unfold Str.all. simpl. rewrite !andb_true_iff. tauto.
Qed.

(** ** Integers *)

Lemma digit_value_nonneg c d : Int.digit_value c = Some d -> 0 <= d.
Proof.
  unfold Int.digit_value.
  destruct (_ && _)%N eqn:Hc; [|discriminate].
  apply andb_true_iff in Hc as [Hlo _]. apply N.leb_le in Hlo.
  intros [= <-]. lia.
Qed.

Lemma digits_nonneg s : forall prev k acc n k',
  0 <= acc -> Int.digits s prev k acc = Some (n, k') -> 0 <= n.
Proof.
  induction s as [|c s IH]; simpl; intros prev k acc n k' Hacc.
  - destruct prev; [discriminate|]. now intros [= <- _].
  - destruct (Ascii.eqb c "_").
    + destruct prev; [discriminate|]. now apply IH.
    + destruct (Int.digit_value c) as [d|] eqn:Hd; [|discriminate].
      apply IH. apply digit_value_nonneg in Hd. lia.
Qed.

(** A literal that starts with a minus sign denotes no positive number. *)
Lemma int_minus `{py : Interpreter} r n :
  Int.int (String "-" r) = Some n -> n <= 0.
Proof.
  unfold Int.int, Str.strip_by.
  change (Str.lstrip_by Int.isspace (String "-" r)) with (String "-" r).
  assert (Hr : Str.rstrip_by Int.isspace (String "-" r)
               = String "-" (Str.rstrip_by Int.isspace r)).
  { simpl. now destruct (Str.rstrip_by Int.isspace r). }
  rewrite Hr. cbn [Int.split_sign].
  destruct (Int.digits _ true 0 0) as [[m k]|] eqn:Hd; [|discriminate].
  destruct (Int.exceeds_limit k); [discriminate|].
  intros [= <-]. apply digits_nonneg in Hd; lia.
Qed.

Lemma occurs_lstrip_by p s c :
  occurs c s -> p c = false -> occurs c (Str.lstrip_by p s).
Proof.
  intros Hc Hp. induction s as [|a s IH]; simpl in *; [contradiction|].
  destruct (p a) eqn:Ha; [|exact Hc].
  destruct Hc as [->|Hc]; [congruence | now apply IH].
Qed.

Lemma occurs_rstrip_by p s c :
  occurs c s -> p c = false -> occurs c (Str.rstrip_by p s).
Proof.
  intros Hc Hp. induction s as [|a s IH]; simpl in *; [contradiction|].
  destruct Hc as [->|Hc].
  - destruct (Str.rstrip_by p s); [rewrite Hp|]; now left.
  - specialize (IH Hc).
    destruct (Str.rstrip_by p s); [contradiction | now right].
Qed.

Lemma digits_chars s : forall prev k acc r,
  Int.digits s prev k acc = Some r ->
  forall c, occurs c s -> c = "_"%char \/ Int.digit_value c <> None.
Proof.
  induction s as [|a s IH]; simpl; intros prev k acc r Hd c Hc;
    [contradiction|].
  destruct (Ascii.eqb a "_") eqn:Ha.
  - apply Ascii.eqb_eq in Ha. destruct prev; [discriminate|].
    destruct Hc as [<-|Hc]; [now left | exact (IH _ _ _ _ Hd c Hc)].
  - destruct (Int.digit_value a) as [d|] eqn:Hv; [|discriminate].
    destruct Hc as [<-|Hc]; [right; congruence | exact (IH _ _ _ _ Hd c Hc)].
Qed.

(** [int] fails on a text that holds a character of no literal. *)
Lemma int_non_numeric `{py : Interpreter} s c :
  occurs c s -> numeric_char c = false -> Int.int s = None.
Proof.
  intros Hc Hn. unfold numeric_char in Hn.
  destruct (Int.digit_value c) eqn:Hv; [discriminate|].
  apply orb_false_iff in Hn as [Hn Hsp].
  apply orb_false_iff in Hn as [Hn Hus].
  apply orb_false_iff in Hn as [Hplus Hminus].
  apply Ascii.eqb_neq in Hplus, Hminus, Hus.
  assert (Ht : occurs c (Str.strip_by Int.isspace s))
    by now apply occurs_rstrip_by; [apply occurs_lstrip_by|].
  unfold Int.int.
  assert (Hb : occurs c (snd (Int.split_sign (Str.strip_by Int.isspace s)))).
  { destruct (Str.strip_by Int.isspace s) as [|a t]; [contradiction|].
    unfold Int.split_sign.
    destruct (Ascii.eqb a "-") eqn:Em;
      [apply Ascii.eqb_eq in Em; subst a|];
      [destruct Ht as [<-|Ht]; [congruence | exact Ht]|].
    destruct (Ascii.eqb a "+") eqn:Ep;
      [apply Ascii.eqb_eq in Ep; subst a|];
      [destruct Ht as [<-|Ht]; [congruence | exact Ht]|].
    apply Ascii.eqb_neq in Em, Ep.
    destruct a as [[] [] [] [] [] [] [] []]; try exact Ht; congruence. }
  destruct (Int.split_sign _) as [neg body]. simpl in Hb.
  destruct (Int.digits body true 0 0) as [[n k]|] eqn:Hd; [|reflexivity].
  destruct (digits_chars _ _ _ _ _ Hd c Hb) as [->|Hdig]; congruence.
Qed.

(** ** The model on small inputs *)

Example strip_examples :
  map Str.strip
    ["  Anna  "; "Anna"; "   "; " a b " ++ String "010" EmptyString;
     String "009" (String "160" "x" ++ String "031" EmptyString)]
  = ["Anna"; "Anna"; EmptyString; "a b"; "x"].
Proof. reflexivity. Qed.

Example contains_examples :
  map (Str.contains "@") ["anna@example.com"; "annaexample.com"; "@"; EmptyString]
  = [true; false; true; false].
Proof. reflexivity. Qed.

Example int_examples `{py : Interpreter} :
  map Int.int
    ["30"; "-5"; "0"; "-0"; "007"; "+7"; "1_000"; " 12 ";
     "abc"; "1_"; "_1"; "1__0"; "+-5"; "-"; "+ 5"; "1 2"; "5.0"; "1e3";
     String "028" "1"; EmptyString]
  = [Some 30; Some (-5); Some 0; Some 0; Some 7; Some 7; Some 1000; Some 12;
     None; None; None; None; None; None; None; None; None; None;
     None; None].
Proof. reflexivity. Qed.

(** A literal of 4301 digits is refused under the default limit and
    read when the limit is switched off. *)
Example int_digit_limit :
  let s := String.string_of_list_ascii (replicate 4301 "1"%char) in
  Int.int (py := cpython_default) s = None
  /\ is_Some (Int.int (py := {| int_max_str_digits := 0 |}) s).
Proof. split; vm_compute; eauto. Qed.

(** ** Validation *)

Lemma errors_distinct :
  MissingRequiredField <> InvalidEmailFormat /\
  MissingRequiredField <> InvalidAge /\
  InvalidEmailFormat <> InvalidAge.
Proof. repeat split; discriminate. Qed.

Section Validation.
Context `{py : Interpreter}.

(** Reading an entry: the content when the label is there, [KeyError]
    otherwise. *)
Lemma bind_StringVar_get {B} label (k : string -> M B) g :
  bind (StringVar_get label) k g =
    match variables g !! label with
    | Some v => k v g
    | None => (Raise (KeyError label), g)
    end.
Proof. unfold bind, StringVar_get. now destruct (variables g !! label). Qed.

Lemma bind_Text_get {B} (k : string -> M B) g :
  bind Text_get k g = k (text_widget g ++ String "010" "") g.
Proof. reflexivity. Qed.

(** The decision list of [parse_form_data] on a form that holds the four
    entries; the form itself is left as it was. *)
Lemma parse_form_data_raw g fn ln em ag :
  raw_fields g fn ln em ag ->
  parse_form_data g =
    (if negb (Str.all [Str.strip fn; Str.strip ln; Str.strip em; Str.strip ag])
     then Raise MissingRequiredField
     else if negb (Str.contains "@" (Str.strip em))
             || negb (Str.contains "." (Str.strip em))
     then Raise InvalidEmailFormat
     else match Int.int (Str.strip ag) with
          | Some n =>
              if n <=? 0 then Raise InvalidAge
              else Return {| first_name := Str.strip fn;
                             last_name := Str.strip ln;
                             email := Str.strip em;
                             age := n;
                             comments := Str.strip (text_widget g) |}
          | None => Raise InvalidAge
          end,
     g).
Proof.
  intros (Hfn & Hln & Hem & Hag).
  unfold parse_form_data.
  rewrite bind_StringVar_get, Hfn, bind_StringVar_get, Hln.
  rewrite bind_StringVar_get, Hem, bind_StringVar_get, Hag.
  rewrite bind_Text_get, strip_newline.
  destruct (negb (Str.all _)); [reflexivity|].
  destruct (_ || _); [reflexivity|].
  destruct (Int.int _) as [n|]; [|reflexivity].
  destruct (n <=? 0); reflexivity.
Qed.

(** Rule 1 fires exactly when a required field is blank. *)
Lemma rule_required fn ln em ag :
  negb (Str.all [Str.strip fn; Str.strip ln; Str.strip em; Str.strip ag]) = true
  <-> blank fn \/ blank ln \/ blank em \/ blank ag.
Proof.
  rewrite negb_true_iff, <- !truthy_strip.
  unfold Str.all. simpl. rewrite andb_true_r.
  rewrite !andb_false_iff. tauto.
Qed.

Lemma rule_required_false fn ln em ag :
  negb (Str.all [Str.strip fn; Str.strip ln; Str.strip em; Str.strip ag]) = false
  <-> Str.strip fn <> "" /\ Str.strip ln <> "" /\
      Str.strip em <> "" /\ Str.strip ag <> "".
Proof.
  rewrite negb_false_iff, all_four.
  assert (Ht : forall s, Str.truthy s = true <-> s <> "")
    by (intros []; simpl; split; congruence).
  rewrite !Ht. tauto.
Qed.

(** Rule 2 fires exactly when the trimmed e-mail lacks ["@"] or ["."]. *)
Lemma rule_email em :
  negb (Str.contains "@" (Str.strip em))
  || negb (Str.contains "." (Str.strip em)) = true
  <-> ~ occurs "@" (Str.strip em) \/ ~ occurs "." (Str.strip em).
Proof.
  rewrite orb_true_iff, !negb_true_iff, !contains_char_false. tauto.
Qed.

Lemma rule_email_false em :
  negb (Str.contains "@" (Str.strip em))
  || negb (Str.contains "." (Str.strip em)) = false
  <-> occurs "@" (Str.strip em) /\ occurs "." (Str.strip em).
Proof.
  rewrite orb_false_iff, !negb_false_iff, !contains_char. tauto.
Qed.

(** C1. The rules are decided in a fixed order and the first failure
    wins: a blank required field gives [MissingRequiredField] whatever
    the e-mail and the age are; with the required fields present, an
    e-mail that lacks ["@"] or ["."] gives [InvalidEmailFormat], and not
    [InvalidAge], whatever the age is; the age is decided last. *)
Theorem validation_order g fn ln em ag :
  raw_fields g fn ln em ag ->
  (blank fn \/ blank ln \/ blank em \/ blank ag ->
   parse_form_data g = (Raise MissingRequiredField, g))
  /\
  (~ (blank fn \/ blank ln \/ blank em \/ blank ag) ->
   ~ occurs "@" (Str.strip em) \/ ~ occurs "." (Str.strip em) ->
   parse_form_data g = (Raise InvalidEmailFormat, g)
   /\ fst (parse_form_data g) <> Raise InvalidAge)
  /\
  (~ (blank fn \/ blank ln \/ blank em \/ blank ag) ->
   occurs "@" (Str.strip em) /\ occurs "." (Str.strip em) ->
   Int.int (Str.strip ag) = None
   \/ (exists n, Int.int (Str.strip ag) = Some n /\ n <= 0) ->
   parse_form_data g = (Raise InvalidAge, g)).
Proof.
  intros Hraw. rewrite (parse_form_data_raw _ _ _ _ _ Hraw).
  split; [|split].
  - intros Hb. apply rule_required in Hb. now rewrite Hb.
  - intros Hb He.
    destruct (negb (Str.all _)) eqn:Hr; [now apply rule_required in Hr|].
    apply rule_email in He. rewrite He. split; [reflexivity|].
    simpl. intros [= Heq].
  - intros Hb He Ha.
    destruct (negb (Str.all _)) eqn:Hr; [now apply rule_required in Hr|].
    apply rule_email_false in He. rewrite He.
    destruct Ha as [->|(n & -> & Hn)]; [reflexivity|].
    apply Z.leb_le in Hn. now rewrite Hn.
Qed.

(** C2. A form with a blank required field (empty or whitespace only)
    fails with [MissingRequiredField]; with the four required fields
    present no content of the comment box, the empty one included,
    gives this failure. *)
Theorem missing_required_field g fn ln em ag :
  raw_fields g fn ln em ag ->
  (blank fn \/ blank ln \/ blank em \/ blank ag ->
   parse_form_data g = (Raise MissingRequiredField, g))
  /\
  (~ (blank fn \/ blank ln \/ blank em \/ blank ag) ->
   forall cm,
     fst (parse_form_data (type_comments cm g)) <> Raise MissingRequiredField).
Proof.
  intros Hraw. split.
  - intros Hb. rewrite (parse_form_data_raw _ _ _ _ _ Hraw).
    apply rule_required in Hb. now rewrite Hb.
  - intros Hb cm.
    assert (Hraw' : raw_fields (type_comments cm g) fn ln em ag) by exact Hraw.
    rewrite (parse_form_data_raw _ _ _ _ _ Hraw').
    destruct (negb (Str.all _)) eqn:Hr; [now apply rule_required in Hr|].
    simpl. destruct (_ || _); [discriminate|].
    destruct (Int.int _) as [n|]; [|discriminate].
    destruct (n <=? 0); discriminate.
Qed.

(** C3. With the four required fields non-empty after trimming, a
    trimmed e-mail that lacks ["@"] or lacks ["."] fails with
    [InvalidEmailFormat]; an e-mail that holds both, wherever they
    stand, does not fail with [InvalidEmailFormat]. *)
Theorem invalid_email_format g fn ln em ag :
  raw_fields g fn ln em ag ->
  (Str.strip fn <> "" /\ Str.strip ln <> "" /\
   Str.strip em <> "" /\ Str.strip ag <> "" ->
   ~ occurs "@" (Str.strip em) \/ ~ occurs "." (Str.strip em) ->
   parse_form_data g = (Raise InvalidEmailFormat, g))
  /\
  (occurs "@" (Str.strip em) /\ occurs "." (Str.strip em) ->
   fst (parse_form_data g) <> Raise InvalidEmailFormat).
Proof.
  intros Hraw. rewrite (parse_form_data_raw _ _ _ _ _ Hraw). split.
  - intros Hr He. apply rule_required_false in Hr. rewrite Hr.
    apply rule_email in He. now rewrite He.
  - intros He. apply rule_email_false in He. rewrite He.
    destruct (negb (Str.all _)); [discriminate|].
    destruct (Int.int _) as [n|]; [|discriminate].
    destruct (n <=? 0); discriminate.
Qed.

(** C5. When the three rules pass, [parse_form_data] returns the record
    of the trimmed first name, last name, e-mail and comments and of the
    positive integer read from the trimmed age text. *)
Theorem validation_success g fn ln em ag n :
  raw_fields g fn ln em ag ->
  Str.strip fn <> "" /\ Str.strip ln <> "" /\
  Str.strip em <> "" /\ Str.strip ag <> "" ->
  occurs "@" (Str.strip em) /\ occurs "." (Str.strip em) ->
  Int.int (Str.strip ag) = Some n ->
  0 < n ->
  parse_form_data g =
    (Return {| first_name := Str.strip fn;
               last_name := Str.strip ln;
               email := Str.strip em;
               age := n;
               comments := Str.strip (text_widget g) |},
     g).
Proof.
  intros Hraw Hr He Hi Hn. rewrite (parse_form_data_raw _ _ _ _ _ Hraw).
  apply rule_required_false in Hr. apply rule_email_false in He.
  rewrite Hr, He, Hi.
  apply Z.leb_gt in Hn. now rewrite Hn.
Qed.

(** [parse_form_data] only reads the form. *)
Lemma parse_form_data_pure g : snd (parse_form_data g) = g.
Proof.
  unfold parse_form_data.
  do 4 (rewrite bind_StringVar_get;
        match goal with
        | |- context [variables g !! ?k] => destruct (variables g !! k)
        end; [|reflexivity]).
  rewrite bind_Text_get.
  destruct (negb (Str.all _)); [reflexivity|].
  destruct (_ || _); [reflexivity|].
  destruct (Int.int _) as [n|]; [|reflexivity].
  destruct (n <=? 0); reflexivity.
Qed.

(** The result is a function of the four entries and of the comment box;
    its tag and its first four fields do not depend on the comment box. *)
Lemma parse_form_data_entries g1 g2 :
  same_entries g1 g2 ->
  match fst (parse_form_data g1), fst (parse_form_data g2) with
  | Return r1, Return r2 =>
      first_name r1 = first_name r2 /\ last_name r1 = last_name r2 /\
      email r1 = email r2 /\ age r1 = age r2 /\
      comments r1 = Str.strip (text_widget g1) /\
      comments r2 = Str.strip (text_widget g2)
  | Raise e1, Raise e2 => e1 = e2
  | _, _ => False
  end.
Proof.
  intros (E1 & E2 & E3 & E4).
  unfold parse_form_data.
  do 4 (rewrite !bind_StringVar_get, ?E1, ?E2, ?E3, ?E4;
        match goal with
        | |- context [variables g2 !! ?k] => destruct (variables g2 !! k)
        end; [|reflexivity]).
  rewrite !bind_Text_get, !strip_newline.
  destruct (negb (Str.all _)); [reflexivity|].
  destruct (_ || _); [reflexivity|].
  destruct (Int.int _) as [n|]; [|reflexivity].
  destruct (n <=? 0); simpl; [reflexivity|]. repeat split.
Qed.

(** C6. [parse_form_data] is a function of the raw fields: two forms
    with the same four entries and the same comments give the same
    result, success or failure; it leaves the form as it found it, and
    run again on the form it leaves it gives the same result. *)
Theorem validation_deterministic g1 g2 :
  same_entries g1 g2 ->
  text_widget g1 = text_widget g2 ->
  fst (parse_form_data g1) = fst (parse_form_data g2)
  /\ snd (parse_form_data g1) = g1
  /\ parse_form_data (snd (parse_form_data g1)) = parse_form_data g1.
Proof.
  intros Hsame Htext. split; [|split].
  - pose proof (parse_form_data_entries _ _ Hsame) as Hres.
    destruct (fst (parse_form_data g1)) as [[f1 l1 e1 a1 c1]|x1],
             (fst (parse_form_data g2)) as [[f2 l2 e2 a2 c2]|x2];
      simpl in Hres; try contradiction.
    + destruct Hres as (-> & -> & -> & -> & -> & ->). now rewrite Htext.
    + now subst.
  - apply parse_form_data_pure.
  - now rewrite parse_form_data_pure.
Qed.

(** C9. Scenario A: the form with Vorname ["Anna"], Nachname ["Muster"],
    E-Mail ["anna@example.com"], Alter ["30"] and no comments is valid
    and gives the record (Anna, Muster, anna@example.com, 30, ""). *)
Theorem scenario_A :
  parse_form_data (filled "Anna" "Muster" "anna@example.com" "30" "") =
    (Return {| first_name := "Anna";
               last_name := "Muster";
               email := "anna@example.com";
               age := 30;
               comments := "" |},
     filled "Anna" "Muster" "anna@example.com" "30" "").
Proof. reflexivity. Qed.

(** C10. The comments decide nothing: two forms with the same four
    required entries have the same outcome, success or the same error,
    whatever their comment boxes hold; when one succeeds the other
    succeeds with the same first four fields, and the comments only
    appear, trimmed, in the record. *)
Theorem comments_do_not_decide g1 g2 :
  same_entries g1 g2 ->
  outcome_tag (fst (parse_form_data g1)) = outcome_tag (fst (parse_form_data g2))
  /\ forall r1,
       fst (parse_form_data g1) = Return r1 ->
       comments r1 = Str.strip (text_widget g1)
       /\ fst (parse_form_data g2) =
            Return {| first_name := first_name r1;
                      last_name := last_name r1;
                      email := email r1;
                      age := age r1;
                      comments := Str.strip (text_widget g2) |}.
Proof.
  intros Hsame.
  pose proof (parse_form_data_entries _ _ Hsame) as Hres.
  destruct (fst (parse_form_data g1)) as [r|x1],
           (fst (parse_form_data g2)) as [[f2 l2 e2 a2 c2]|x2];
    simpl in Hres; try contradiction.
  - destruct Hres as (? & ? & ? & ? & ? & ?). split; [reflexivity|].
    intros r1 [= <-]. split; [assumption|]. now subst.
  - subst. split; [reflexivity | discriminate].
Qed.

End Validation.

(** ** The submit flow *)

(** The loop of [reset_form] writes the empty string under each label
    of the list. *)
Lemma for_each_set_empty l : forall g,
  for_each l (fun variable => StringVar_set variable "") g =
    (Return tt,
     {| variables := foldl (fun m label => <[label := ""]> m) (variables g) l;
        text_widget := text_widget g;
        dialogs := dialogs g |}).
Proof.
  induction l as [|x l IH]; intros g.
  - now destruct g.
  - simpl. unfold bind. simpl. now rewrite IH.
Qed.

Lemma lookup_foldl_set_empty l : forall (m : gmap string string) k,
  foldl (fun m label => <[label := ""]> m) m l !! k
  = if decide (k ∈ l) then Some "" else m !! k.
Proof.
  induction l as [|x l IH]; intros m k; cbn [foldl].
  - destruct (decide (k ∈ [])) as [Hk|_]; [|reflexivity].
    now apply elem_of_nil in Hk.
  - rewrite IH. destruct (decide (k ∈ l)) as [Hl|Hl].
    + rewrite decide_True; [reflexivity | now right].
    + destruct (decide (k = x)) as [->|Hx].
      * rewrite lookup_insert_eq, decide_True; [reflexivity | now left].
      * rewrite lookup_insert_ne by congruence.
        rewrite decide_False; [reflexivity|].
        intros [?|?]%elem_of_cons; contradiction.
Qed.

Lemma set_empty_all (m : gmap string string) :
  foldl (fun m label => <[label := ""]> m) m (elements (dom m))
  = (fun _ : string => "") <$> m.
Proof.
  apply map_eq. intros k.
  rewrite lookup_foldl_set_empty, lookup_fmap.
  destruct (m !! k) as [v|] eqn:Hk; simpl.
  - rewrite decide_True; [reflexivity|].
    apply elem_of_elements, elem_of_dom. now exists v.
  - rewrite decide_False; [reflexivity|].
    intros Hin%elem_of_elements%elem_of_dom.
    rewrite Hk in Hin. now destruct Hin.
Qed.

(** [reset_form] empties every entry and the comment box. *)
Lemma reset_form_cleared g : reset_form g = (Return tt, cleared g).
Proof.
  unfold reset_form, bind, labels, Text_delete.
  rewrite for_each_set_empty. simpl. unfold cleared.
  now rewrite set_empty_all.
Qed.

Section Submit.
Context `{py : Interpreter}.

(** C7. When the validation fails, [handle_submit] shows the error
    dialog with the message of the failure and does nothing else: the
    four entries and the comment box are as before. *)
Theorem submit_failure_keeps_fields g msg :
  fst (parse_form_data g) = Raise (ValueError msg) ->
  handle_submit g =
    (Return tt,
     {| variables := variables g;
        text_widget := text_widget g;
        dialogs := dialogs g ++ [showerror_call "Fehler" msg] |}).
Proof.
  intros Hfail. pose proof (parse_form_data_pure g) as Hpure.
  unfold handle_submit, try_except_ValueError.
  destruct (parse_form_data g) as [r g']. simpl in Hfail, Hpure.
  subst. reflexivity.
Qed.

(** C8. After a successful validation [handle_submit] shows the
    confirmation and then runs [reset_form]; [reset_form], from any
    form, empties every entry and the comment box. *)
Theorem reset_after_success :
  (forall g data,
     fst (parse_form_data g) = Return data ->
     handle_submit g
       = bind (showinfo "Erfolg" (success_message data)) (fun _ => reset_form) g
     /\ handle_submit g =
          (Return tt,
           {| variables := (fun _ : string => "") <$> variables g;
              text_widget := "";
              dialogs := dialogs g
                         ++ [showinfo_call "Erfolg" (success_message data)] |}))
  /\ (forall g, reset_form g = (Return tt, cleared g))
  /\ (forall g fn ln em ag,
        raw_fields g fn ln em ag ->
        raw_fields (snd (reset_form g)) "" "" "" ""
        /\ text_widget (snd (reset_form g)) = "")
  /\ (forall g k, variables (snd (reset_form g)) !! k
                  = (fun _ : string => "") <$> variables g !! k).
Proof.
  split; [|split; [|split]].
  - intros g data Hok. pose proof (parse_form_data_pure g) as Hpure.
    unfold handle_submit, try_except_ValueError.
    destruct (parse_form_data g) as [r g']. simpl in Hok, Hpure.
    subst. split; [reflexivity|].
    unfold bind, showinfo, show. now rewrite reset_form_cleared.
  - apply reset_form_cleared.
  - intros g fn ln em ag (Hfn & Hln & Hem & Hag).
    rewrite reset_form_cleared. split; [|reflexivity].
    unfold raw_fields. simpl.
    rewrite !lookup_fmap, Hfn, Hln, Hem, Hag. repeat split.
  - intros g k. rewrite reset_form_cleared. simpl. apply lookup_fmap.
Qed.

End Submit.

(** ** The theorems at concrete forms, on CPython's default setting *)

Lemma raw_fields_filled fn ln em ag cm :
  raw_fields (filled fn ln em ag cm) fn ln em ag.
Proof. repeat split. Qed.

(** A string with a character that is no whitespace is not blank. *)
Ltac not_blank :=
  let Hb := fresh "Hb" in
  intros Hb;
  repeat (destruct Hb as [Hb|Hb]);
  apply strip_blank in Hb; vm_compute in Hb; discriminate Hb.

Ltac present := repeat split; vm_compute; discriminate.

Ltac has_chars := split; apply contains_char; reflexivity.

Ltac lacks_char := apply contains_char_false; reflexivity.

(** An empty first name beside a malformed e-mail and a negative age;
    a malformed e-mail beside a negative age; a negative age alone. *)
Lemma validation_order_witness :
  parse_form_data (py := cpython_default)
    (filled "" "Muster" "annaexample.com" "-5" "")
  = (Raise MissingRequiredField, filled "" "Muster" "annaexample.com" "-5" "")
  /\
  parse_form_data (py := cpython_default)
    (filled "Anna" "Muster" "annaexample.com" "-5" "")
  = (Raise InvalidEmailFormat, filled "Anna" "Muster" "annaexample.com" "-5" "")
  /\
  parse_form_data (py := cpython_default)
    (filled "Anna" "Muster" "anna@example.com" "-5" "")
  = (Raise InvalidAge, filled "Anna" "Muster" "anna@example.com" "-5" "").
Proof.
  split; [|split].
  - apply (validation_order (py := cpython_default) _ _ _ _ _
             (raw_fields_filled "" "Muster" "annaexample.com" "-5" "")).
    left. intros c [].
  - apply (validation_order (py := cpython_default) _ _ _ _ _
             (raw_fields_filled "Anna" "Muster" "annaexample.com" "-5" "")).
    + not_blank.
    + left. lacks_char.
  - apply (validation_order (py := cpython_default) _ _ _ _ _
             (raw_fields_filled "Anna" "Muster" "anna@example.com" "-5" "")).
    + not_blank.
    + has_chars.
    + right. exists (-5). split; [reflexivity | lia].
Defined.

(** Scenario D, a last name of spaces only, and a valid form without
    comments. *)
Lemma missing_required_field_witness :
  parse_form_data (py := cpython_default)
    (filled "" "Muster" "anna@example.com" "30" "")
  = (Raise MissingRequiredField, filled "" "Muster" "anna@example.com" "30" "")
  /\
  parse_form_data (py := cpython_default)
    (filled "Anna" "   " "anna@example.com" "30" "")
  = (Raise MissingRequiredField, filled "Anna" "   " "anna@example.com" "30" "")
  /\
  fst (parse_form_data (py := cpython_default)
         (type_comments "" (filled "Anna" "Muster" "anna@example.com" "30" "x")))
  <> Raise MissingRequiredField.
Proof.
  split; [|split].
  - apply (missing_required_field (py := cpython_default) _ _ _ _ _
             (raw_fields_filled "" "Muster" "anna@example.com" "30" "")).
    left. intros c [].
  - apply (missing_required_field (py := cpython_default) _ _ _ _ _
             (raw_fields_filled "Anna" "   " "anna@example.com" "30" "")).
    right. left. apply strip_blank. reflexivity.
  - apply (missing_required_field (py := cpython_default) _ _ _ _ _
             (raw_fields_filled "Anna" "Muster" "anna@example.com" "30" "x")).
    not_blank.
Defined.

(** Scenario C, and an e-mail that is just a dot and an at sign. *)
Lemma invalid_email_format_witness :
  parse_form_data (py := cpython_default)
    (filled "Anna" "Muster" "annaexample.com" "30" "")
  = (Raise InvalidEmailFormat, filled "Anna" "Muster" "annaexample.com" "30" "")
  /\
  fst (parse_form_data (py := cpython_default)
         (filled "Anna" "Muster" ".@" "30" ""))
  <> Raise InvalidEmailFormat.
Proof.
  split.
  - apply (invalid_email_format (py := cpython_default) _ _ _ _ _
             (raw_fields_filled "Anna" "Muster" "annaexample.com" "30" "")).
    + present.
    + left. lacks_char.
  - apply (invalid_email_format (py := cpython_default) _ _ _ _ _
             (raw_fields_filled "Anna" "Muster" ".@" "30" "")).
    has_chars.
Defined.

(** The first name ["  Anna  "] is stored as ["Anna"], and the comments
    may be empty. *)
Lemma validation_success_witness :
  parse_form_data (py := cpython_default)
    (filled "  Anna  " "Muster" "anna@example.com" "30" "")
  = (Return {| first_name := "Anna";
               last_name := "Muster";
               email := "anna@example.com";
               age := 30;
               comments := "" |},
     filled "  Anna  " "Muster" "anna@example.com" "30" "").
Proof.
  refine (validation_success (py := cpython_default) _ _ _ _ _ 30
            (raw_fields_filled "  Anna  " "Muster" "anna@example.com" "30" "")
            _ _ _ _);
    [present | has_chars | reflexivity | lia].
Defined.

(** The same entries in a form that also holds a fifth variable and an
    earlier dialog. *)
Lemma validation_deterministic_witness :
  let g1 := filled "Anna" "Muster" "anna@example.com" "30" "Hallo" in
  let g2 := {| variables := <["Telefon" := "123"]> (variables g1);
               text_widget := "Hallo";
               dialogs := [showerror_call "Fehler" "x"] |} in
  fst (parse_form_data (py := cpython_default) g1)
  = fst (parse_form_data (py := cpython_default) g2)
  /\ snd (parse_form_data (py := cpython_default) g1) = g1
  /\ parse_form_data (py := cpython_default)
       (snd (parse_form_data (py := cpython_default) g1))
     = parse_form_data (py := cpython_default) g1.
Proof.
  apply (validation_deterministic (py := cpython_default)).
  - repeat split.
  - reflexivity.
Defined.

(** Valid entries under two different comments, the second with
    characters that matter in the other fields. *)
Lemma comments_do_not_decide_witness :
  let g1 := filled "Anna" "Muster" "anna@example.com" "30" "" in
  let g2 := type_comments "kein @ und -5 hier" g1 in
  outcome_tag (fst (parse_form_data (py := cpython_default) g1))
  = outcome_tag (fst (parse_form_data (py := cpython_default) g2))
  /\ fst (parse_form_data (py := cpython_default) g2)
     = Return {| first_name := "Anna";
                 last_name := "Muster";
                 email := "anna@example.com";
                 age := 30;
                 comments := "kein @ und -5 hier" |}.
Proof.
  intros g1 g2.
  destruct (comments_do_not_decide (py := cpython_default) g1 g2) as [Htag Hrec].
  - repeat split.
  - split; [exact Htag|].
    exact (proj2 (Hrec {| first_name := "Anna";
                          last_name := "Muster";
                          email := "anna@example.com";
                          age := 30;
                          comments := "" |} eq_refl)).
Defined.

(** Scenario C submitted: the dialog is shown, the entries stay. *)
Lemma submit_failure_keeps_fields_witness :
  let g := filled "Anna" "Muster" "annaexample.com" "30" "Hallo" in
  handle_submit (py := cpython_default) g
  = (Return tt,
     {| variables := variables g;
        text_widget := "Hallo";
        dialogs :=
          [showerror_call "Fehler"
             ("Bitte geben Sie eine g" ++ String "252" "ltige E-Mail-Adresse ein.")] |}).
Proof.
  intros g.
  apply (submit_failure_keeps_fields (py := cpython_default) g).
  reflexivity.
Defined.

(** Scenario A submitted, and a reset of the filled form. *)
Lemma reset_after_success_witness :
  let g := filled "Anna" "Muster" "anna@example.com" "30" "Hallo" in
  handle_submit (py := cpython_default) g
  = (Return tt,
     {| variables := build_form_fields;
        text_widget := "";
        dialogs :=
          [showinfo_call "Erfolg"
             ("Vielen Dank, Anna Muster!" ++ String "010" (String "010" "")
              ++ "Wir haben Ihre Daten erhalten und melden uns unter "
              ++ "anna@example.com.")] |})
  /\ raw_fields (snd (reset_form g)) "" "" "" ""
  /\ text_widget (snd (reset_form g)) = "".
Proof.
  intros g.
  destruct (reset_after_success (py := cpython_default))
    as (Hsubmit & _ & Hreset & _).
  split.
  - destruct (Hsubmit g {| first_name := "Anna";
                           last_name := "Muster";
                           email := "anna@example.com";
                           age := 30;
                           comments := "Hallo" |} eq_refl) as [_ ->].
    reflexivity.
  - apply (Hreset g "Anna" "Muster" "anna@example.com" "30").
    repeat split.
Defined.

(** * Further properties of the program *)

(** ** Trimmed text *)

Lemma rstrip_by_keeps_head p a s :
  p a = false ->
  exists r, Str.rstrip_by p (String a s) = String a r.
Proof.
  intros Hp. simpl. destruct (Str.rstrip_by p s) as [|b r].
  - rewrite Hp. now exists EmptyString.
  - now exists (String b r).
Qed.

Lemma rstrip_by_idem p s :
  Str.rstrip_by p (Str.rstrip_by p s) = Str.rstrip_by p s.
Proof.
  induction s as [|a s IH]; [reflexivity|]. simpl.
  destruct (Str.rstrip_by p s) as [|b r] eqn:Hr.
  - destruct (p a) eqn:Hp; [reflexivity|]. simpl. now rewrite Hp.
  - change (Str.rstrip_by p (String a (String b r)))
      with (match Str.rstrip_by p (String b r) with
            | EmptyString => if p a then EmptyString else String a EmptyString
            | String c t => String a (String c t)
            end).
    now rewrite IH.
Qed.

(** Trimming a trimmed text changes nothing. *)
Lemma strip_by_idem p s :
  Str.strip_by p (Str.strip_by p s) = Str.strip_by p s.
Proof.
  unfold Str.strip_by.
  destruct (Str.lstrip_by p s) as [|a t] eqn:Hl; [reflexivity|].
  pose proof (lstrip_by_head _ _ _ _ Hl) as Hp.
  destruct (rstrip_by_keeps_head p a t Hp) as [r Hr].
  rewrite Hr. cbn [Str.lstrip_by]. rewrite Hp, <- Hr.
  apply rstrip_by_idem.
Qed.

Lemma strip_idem s : Str.strip (Str.strip s) = Str.strip s.
Proof. apply strip_by_idem. Qed.

(** ** Labels *)

Lemma dom_build_form_fields :
  dom build_form_fields
  = ({[ "Vorname"; "Nachname"; "E-Mail"; "Alter" ]} : gset string).
Proof.
  unfold build_form_fields.
  rewrite !dom_insert_L, dom_singleton_L. set_solver.
Qed.

Lemma raw_fields_of_dom g :
  dom (variables g) = dom build_form_fields ->
  exists fn ln em ag, raw_fields g fn ln em ag.
Proof.
  intros Hdom. rewrite dom_build_form_fields in Hdom.
  assert (Hin : forall k : string,
             k ∈ ({[ "Vorname"; "Nachname"; "E-Mail"; "Alter" ]} : gset string) ->
             is_Some (variables g !! k)).
  { intros k Hk. apply elem_of_dom. now rewrite Hdom. }
  destruct (Hin "Vorname") as [fn Hfn]; [set_solver|].
  destruct (Hin "Nachname") as [ln Hln]; [set_solver|].
  destruct (Hin "E-Mail") as [em Hem]; [set_solver|].
  destruct (Hin "Alter") as [ag Hag]; [set_solver|].
  now exists fn, ln, em, ag.
Qed.

Lemma fmap_const_dom (m1 m2 : gmap string string) (c : string) :
  dom m1 = dom m2 ->
  (fun _ : string => c) <$> m1 = (fun _ : string => c) <$> m2.
Proof.
  intros Hdom. apply map_eq. intros k. rewrite !lookup_fmap.
  destruct (m1 !! k) as [v1|] eqn:H1, (m2 !! k) as [v2|] eqn:H2;
    try reflexivity.
  - assert (Hk : k ∈ dom m2) by (rewrite <- Hdom; apply elem_of_dom; eauto).
    apply elem_of_dom in Hk as [? Hk]. congruence.
  - assert (Hk : k ∈ dom m1) by (rewrite Hdom; apply elem_of_dom; eauto).
    apply elem_of_dom in Hk as [? Hk]. congruence.
Qed.

Section Flow.
Context `{py : Interpreter}.

(** Either the four labels are there, or [parse_form_data] stops with
    the [KeyError] of one of them, which the dictionary lacks. *)
Lemma parse_form_data_labels g :
  (exists fn ln em ag, raw_fields g fn ln em ag)
  \/ exists k,
       (k = "Vorname" \/ k = "Nachname" \/ k = "E-Mail" \/ k = "Alter")
       /\ variables g !! k = None
       /\ parse_form_data g = (Raise (KeyError k), g).
Proof.
  unfold parse_form_data.
  rewrite bind_StringVar_get.
  destruct (variables g !! "Vorname") as [fn|] eqn:Hfn;
    [|right; exists "Vorname"; tauto].
  rewrite bind_StringVar_get.
  destruct (variables g !! "Nachname") as [ln|] eqn:Hln;
    [|right; exists "Nachname"; tauto].
  rewrite bind_StringVar_get.
  destruct (variables g !! "E-Mail") as [em|] eqn:Hem;
    [|right; exists "E-Mail"; tauto].
  rewrite bind_StringVar_get.
  destruct (variables g !! "Alter") as [ag|] eqn:Hag;
    [|right; exists "Alter"; tauto].
  left. now exists fn, ln, em, ag.
Qed.

(** [handle_submit] by the result of the validation. *)
Lemma handle_submit_cases g :
  handle_submit g =
    match fst (parse_form_data g) with
    | Return data =>
        (Return tt,
         {| variables := (fun _ : string => "") <$> variables g;
            text_widget := "";
            dialogs := dialogs g
                       ++ [showinfo_call "Erfolg" (success_message data)] |})
    | Raise (ValueError msg) =>
        (Return tt,
         {| variables := variables g;
            text_widget := text_widget g;
            dialogs := dialogs g ++ [showerror_call "Fehler" msg] |})
    | Raise (KeyError k) => (Raise (KeyError k), g)
    end.
Proof.
  pose proof (parse_form_data_pure g) as Hpure.
  unfold handle_submit, try_except_ValueError.
  destruct (parse_form_data g) as [[data|[msg|k]] g']; simpl in *; subst;
    try reflexivity.
  unfold bind, showinfo, show. now rewrite reset_form_cleared.
Qed.

(** X1. A dictionary that lacks a label: [parse_form_data] raises the
    [KeyError] of the first label it cannot read, before any rule is
    looked at, and [handle_submit] lets this exception through: no
    dialog is shown and the form is as before. *)
Theorem missing_label_KeyError g k :
  first_missing g = Some k ->
  parse_form_data g = (Raise (KeyError k), g)
  /\ handle_submit g = (Raise (KeyError k), g).
Proof.
  intros Hk.
  assert (Hparse : parse_form_data g = (Raise (KeyError k), g)).
  { revert Hk. unfold first_missing, required_labels, parse_form_data.
    cbn [List.find].
    repeat (rewrite bind_StringVar_get;
            match goal with
            | |- context [variables g !! ?l] =>
                destruct (variables g !! l) eqn:?
            end;
            [rewrite bool_decide_eq_false_2 by discriminate
            |rewrite bool_decide_eq_true_2 by reflexivity;
             now intros [= <-]]).
    discriminate. }
  split; [exact Hparse|].
  rewrite handle_submit_cases, Hparse. reflexivity.
Qed.

(** X2. On a form with the four labels [handle_submit] never raises and
    shows exactly one dialog: the error dialog with one of the three
    validation messages, the form kept, or the confirmation, the form
    emptied. *)
Theorem submit_shows_one_dialog g fn ln em ag :
  raw_fields g fn ln em ag ->
  (exists msg,
     (ValueError msg = MissingRequiredField
      \/ ValueError msg = InvalidEmailFormat
      \/ ValueError msg = InvalidAge)
     /\ handle_submit g =
          (Return tt,
           {| variables := variables g;
              text_widget := text_widget g;
              dialogs := dialogs g ++ [showerror_call "Fehler" msg] |}))
  \/
  (exists data,
     fst (parse_form_data g) = Return data
     /\ handle_submit g =
          (Return tt,
           {| variables := (fun _ : string => "") <$> variables g;
              text_widget := "";
              dialogs := dialogs g
                         ++ [showinfo_call "Erfolg" (success_message data)] |})).
Proof.
  intros Hraw. rewrite handle_submit_cases.
  rewrite (parse_form_data_raw _ _ _ _ _ Hraw). cbn [fst].
  destruct (negb (Str.all _)); [left; eexists; split; [|reflexivity]; tauto|].
  destruct (_ || _); [left; eexists; split; [|reflexivity]; tauto|].
  destruct (Int.int _) as [n|];
    [|left; eexists; split; [|reflexivity]; tauto].
  destruct (n <=? 0); [left; eexists; split; [|reflexivity]; tauto|].
  right. eexists. split; reflexivity.
Qed.

(** X3. Every record that [parse_form_data] returns meets the
    constraints of the data model: the names and the e-mail are not
    empty, the e-mail holds ["@"] and ["."], the age is positive, and
    the four texts carry no whitespace at their ends. *)
Theorem returned_record_is_valid g r :
  fst (parse_form_data g) = Return r ->
  first_name r <> "" /\ last_name r <> "" /\ email r <> ""
  /\ occurs "@" (email r) /\ occurs "." (email r)
  /\ 0 < age r
  /\ Str.strip (first_name r) = first_name r
  /\ Str.strip (last_name r) = last_name r
  /\ Str.strip (email r) = email r
  /\ Str.strip (comments r) = comments r.
Proof.
  destruct (parse_form_data_labels g)
    as [(fn & ln & em & ag & Hraw)|(k & _ & _ & Hk)];
    [|rewrite Hk; discriminate].
  rewrite (parse_form_data_raw _ _ _ _ _ Hraw). cbn [fst].
  destruct (negb (Str.all _)) eqn:Hr; [discriminate|].
  destruct (_ || _) eqn:He; [discriminate|].
  destruct (Int.int _) as [n|]; [|discriminate].
  destruct (n <=? 0) eqn:Hn; [discriminate|].
  intros [= <-]. cbn [first_name last_name email age comments].
  apply rule_required_false in Hr as (? & ? & ? & ?).
  apply rule_email_false in He as (? & ?).
  apply Z.leb_gt in Hn.
  rewrite !strip_idem. repeat split; assumption.
Qed.

(** X4. On a form whose comment frame carries its text widget, as
    every [Gui] does, an exception of [parse_form_data] is of one of two
    kinds: one of the three validation errors, raised only when the
    dictionary holds the four labels, or the [KeyError] of one of the
    four labels, raised only when the dictionary lacks that label. *)
Theorem parse_form_data_raises g e :
  fst (parse_form_data g) = Raise e ->
  ((e = MissingRequiredField \/ e = InvalidEmailFormat \/ e = InvalidAge)
   /\ exists fn ln em ag, raw_fields g fn ln em ag)
  \/ (exists k,
        e = KeyError k
        /\ (k = "Vorname" \/ k = "Nachname" \/ k = "E-Mail" \/ k = "Alter")
        /\ variables g !! k = None).
Proof.
  destruct (parse_form_data_labels g)
    as [(fn & ln & em & ag & Hraw)|(k & Hlabel & Hnone & Hk)].
  - rewrite (parse_form_data_raw _ _ _ _ _ Hraw). cbn [fst]. intros He.
    left. split; [|now exists fn, ln, em, ag]. revert He.
    destruct (negb (Str.all _)); [intros [= <-]; tauto|].
    destruct (_ || _); [intros [= <-]; tauto|].
    destruct (Int.int _) as [n|]; [|intros [= <-]; tauto].
    destruct (n <=? 0); [intros [= <-]; tauto | discriminate].
  - rewrite Hk. cbn [fst]. intros [= <-]. right. now exists k.
Qed.

(** X5. Whitespace around the inputs does not matter: a form and the
    form that holds the same inputs already trimmed give the same
    result. *)
Theorem surrounding_whitespace_ignored g g' fn ln em ag :
  raw_fields g fn ln em ag ->
  raw_fields g' (Str.strip fn) (Str.strip ln) (Str.strip em) (Str.strip ag) ->
  text_widget g' = Str.strip (text_widget g) ->
  fst (parse_form_data g') = fst (parse_form_data g).
Proof.
  intros Hraw Hraw' Htext.
  rewrite (parse_form_data_raw _ _ _ _ _ Hraw).
  rewrite (parse_form_data_raw _ _ _ _ _ Hraw').
  now rewrite Htext, !strip_idem.
Qed.

(** X6. "Absenden" pressed twice on a valid form: the first call
    confirms and empties the form, the second reports the missing
    required fields. *)
Theorem submit_twice g fn ln em ag data :
  raw_fields g fn ln em ag ->
  fst (parse_form_data g) = Return data ->
  bind handle_submit (fun _ => handle_submit) g =
    (Return tt,
     {| variables := (fun _ : string => "") <$> variables g;
        text_widget := "";
        dialogs :=
          dialogs g
          ++ [showinfo_call "Erfolg" (success_message data);
              showerror_call "Fehler"
                ("Bitte f" ++ String "252" "llen Sie alle Pflichtfelder aus.")] |}).
Proof.
  intros (Hfn & Hln & Hem & Hag) Hok. unfold bind.
  rewrite (handle_submit_cases g), Hok.
  rewrite handle_submit_cases.
  match goal with
  | |- context [parse_form_data ?g'] =>
      assert (Hraw' : raw_fields g' "" "" "" "")
  end.
  { unfold raw_fields. cbn [variables].
    rewrite !lookup_fmap, Hfn, Hln, Hem, Hag. repeat split. }
  rewrite (parse_form_data_raw _ _ _ _ _ Hraw'). cbn.
  now rewrite <- app_assoc.
Qed.

(** X7. [reset_form] run twice is [reset_form] run once; it keeps the
    labels of the dictionary and shows no dialog. *)
Theorem reset_form_idempotent g :
  bind reset_form (fun _ => reset_form) g = reset_form g
  /\ dom (variables (snd (reset_form g))) = dom (variables g)
  /\ dialogs (snd (reset_form g)) = dialogs g.
Proof.
  unfold bind. rewrite !(reset_form_cleared g). cbv beta iota.
  rewrite reset_form_cleared. split; [|split].
  - unfold cleared. cbn. now rewrite <- map_fmap_compose.
  - cbn. apply dom_fmap_L.
  - reflexivity.
Qed.

(** X8. "Absenden" after "Zurücksetzen": whatever the form held, the
    missing required fields are reported and the form stays empty. *)
Theorem submit_after_reset g fn ln em ag :
  raw_fields g fn ln em ag ->
  bind reset_form (fun _ => handle_submit) g =
    (Return tt,
     {| variables := (fun _ : string => "") <$> variables g;
        text_widget := "";
        dialogs :=
          dialogs g
          ++ [showerror_call "Fehler"
                ("Bitte f" ++ String "252" "llen Sie alle Pflichtfelder aus.")] |}).
Proof.
  intros (Hfn & Hln & Hem & Hag). unfold bind.
  rewrite reset_form_cleared, handle_submit_cases.
  assert (Hraw' : raw_fields (cleared g) "" "" "" "").
  { unfold raw_fields. cbn [variables cleared].
    rewrite !lookup_fmap, Hfn, Hln, Hem, Hag. repeat split. }
  rewrite (parse_form_data_raw _ _ _ _ _ Hraw'). reflexivity.
Qed.

End Flow.

(** ** The event loop *)

Section Loop.
Context `{py : Interpreter}.

Lemma parse_form_data_no_KeyError g fn ln em ag k :
  raw_fields g fn ln em ag ->
  fst (parse_form_data g) <> Raise (KeyError k).
Proof.
  intros Hraw. rewrite (parse_form_data_raw _ _ _ _ _ Hraw). cbn [fst].
  destruct (negb (Str.all _)); [discriminate|].
  destruct (_ || _); [discriminate|].
  destruct (Int.int _) as [n|]; [|discriminate].
  destruct (n <=? 0); discriminate.
Qed.

(** One event keeps the labels that [build_form_fields] made, reports
    no exception, and adds a dialog exactly when it is a press of
    "Absenden". *)
Lemma dispatch_keeps w ev :
  dom (variables (fst w)) = dom build_form_fields ->
  dom (variables (fst (dispatch w ev))) = dom build_form_fields
  /\ snd (dispatch w ev) = snd w
  /\ length (dialogs (fst (dispatch w ev)))
     = (length (dialogs (fst w)) + submissions [ev])%nat.
Proof.
  destruct w as [g errs]. cbn [fst snd]. intros Hdom.
  destruct ev as [label text|text| |]; cbn [dispatch submissions fst snd].
  - destruct (variables g !! label) as [v|] eqn:Hl; cbn [fst snd].
    + split; [|split; [reflexivity | cbn; lia]].
      cbn [type_entry variables].
      rewrite dom_insert_L, subseteq_union_1_L; [exact Hdom|].
      apply singleton_subseteq_l, elem_of_dom. eauto.
    + split; [exact Hdom | split; [reflexivity | lia]].
  - split; [exact Hdom | split; [reflexivity | cbn; lia]].
  - destruct (raw_fields_of_dom g Hdom) as (fn & ln & em & ag & Hraw).
    pose proof (parse_form_data_no_KeyError g fn ln em ag) as Hno.
    unfold run_command. cbn [fst snd]. rewrite handle_submit_cases.
    destruct (fst (parse_form_data g)) as [data|[msg|k]];
      [| |now destruct (Hno k)]; cbn [fst snd variables dialogs].
    + rewrite dom_fmap_L, length_app. cbn. repeat split; first [assumption | lia].
    + rewrite length_app. cbn. repeat split; first [assumption | lia].
  - unfold run_command. cbn [fst snd]. rewrite reset_form_cleared.
    cbn [fst snd cleared variables dialogs]. rewrite dom_fmap_L.
    repeat split; first [assumption | lia].
Qed.

Lemma mainloop_keeps evs : forall w,
  dom (variables (fst w)) = dom build_form_fields ->
  dom (variables (fst (mainloop evs w))) = dom build_form_fields
  /\ snd (mainloop evs w) = snd w
  /\ length (dialogs (fst (mainloop evs w)))
     = (length (dialogs (fst w)) + submissions evs)%nat.
Proof.
  unfold mainloop.
  induction evs as [|ev evs IH]; intros w Hdom; cbn [foldl].
  - repeat split; first [assumption | cbn; lia].
  - destruct (dispatch_keeps w ev Hdom) as (Hd & He & Hn).
    destruct (IH _ Hd) as (Hd' & He' & Hn').
    split; [exact Hd' | split; [congruence|]].
    rewrite Hn', Hn. destruct ev; cbn; lia.
Qed.

(** X9. Whatever the user does with the window of [main], no command
    raises an exception, and the dictionary keeps exactly the four
    labels that [build_form_fields] made. *)
Theorem main_never_fails evs :
  snd (main evs) = []
  /\ dom (variables (fst (main evs)))
     = ({[ "Vorname"; "Nachname"; "E-Mail"; "Alter" ]} : gset string).
Proof.
  destruct (mainloop_keeps evs (initial_gui, []) eq_refl) as (Hd & He & _).
  split; [exact He|]. unfold main. now rewrite Hd, dom_build_form_fields.
Qed.

(** X10. In a session of [main] every press of "Absenden" shows exactly one
    dialog, and nothing else shows one. *)
Theorem main_one_dialog_per_submission evs :
  length (dialogs (fst (main evs))) = submissions evs.
Proof.
  destruct (mainloop_keeps evs (initial_gui, []) eq_refl) as (_ & _ & Hn).
  exact Hn.
Qed.

(** X11. "Zurücksetzen", pressed at any moment of a session, brings back the
    form as [build_form_fields] and [build_comments_field] made it; the
    dialogs shown before stay shown. *)
Theorem main_reset_restores_built_form evs :
  variables (fst (main (evs ++ [Press_reset]))) = build_form_fields
  /\ text_widget (fst (main (evs ++ [Press_reset]))) = ""
  /\ dialogs (fst (main (evs ++ [Press_reset]))) = dialogs (fst (main evs)).
Proof.
  destruct (mainloop_keeps evs (initial_gui, []) eq_refl) as (Hd & _ & _).
  unfold main, mainloop in *. rewrite foldl_app. cbn [foldl dispatch].
  unfold run_command. rewrite reset_form_cleared.
  cbn [fst snd cleared variables text_widget dialogs].
  split; [|split; reflexivity].
  rewrite (fmap_const_dom _ build_form_fields "" Hd). reflexivity.
Qed.

End Loop.

(** ** Decimal numerals as age *)

Lemma rstrip_by_id p s :
  (forall c, occurs c s -> p c = false) -> Str.rstrip_by p s = s.
Proof.
  induction s as [|a s IH]; intros Hs; [reflexivity|]. simpl.
  rewrite IH by (intros c Hc; apply Hs; now right).
  destruct s; [|reflexivity]. rewrite (Hs a); [reflexivity | now left].
Qed.

(** A text without whitespace is its own trimmed text. *)
Lemma strip_by_id p s :
  (forall c, occurs c s -> p c = false) -> Str.strip_by p s = s.
Proof.
  intros Hs. unfold Str.strip_by.
  assert (Hl : Str.lstrip_by p s = s).
  { destruct s as [|a s]; [reflexivity|]. simpl.
    rewrite (Hs a); [reflexivity | now left]. }
  rewrite Hl. now apply rstrip_by_id.
Qed.

Ltac uint_cases d IH :=
  induction d as [|d IH|d IH|d IH|d IH|d IH|d IH|d IH|d IH|d IH|d IH].

Lemma uint_chars d c :
  occurs c (DecimalString.NilEmpty.string_of_uint d) ->
  Int.isspace c = false /\ c <> "-"%char /\ c <> "+"%char.
Proof.
  uint_cases d IH; simpl; [contradiction| ..];
    (intros [<-|Hc]; [repeat split; discriminate | exact (IH Hc)]).
Qed.

Lemma uint_length d :
  String.length (DecimalString.NilEmpty.string_of_uint d) = Decimal.nb_digits d.
Proof. uint_cases d IH; simpl; congruence. Qed.

(** One digit read by [Int.digits]. *)
Lemma digits_digit c d s prev k acc :
  Int.digit_value c = Some d ->
  Int.digits (String c s) prev k acc = Int.digits s false (S k) (10 * acc + d).
Proof.
  intros Hd. cbn [Int.digits].
  destruct (Ascii.eqb c "_") eqn:Hc; [|now rewrite Hd].
  apply Ascii.eqb_eq in Hc. subst c. discriminate Hd.
Qed.

Lemma digits_digit_pos c d s k p q :
  Int.digit_value c = Some d ->
  Z.pos q = 10 * Z.pos p + d ->
  Int.digits (String c s) false k (Z.pos p) = Int.digits s false (S k) (Z.pos q).
Proof. intros Hd ->. now apply digits_digit. Qed.

(** [Int.digits] on the digits of a numeral, behind digits of value [p]. *)
Lemma digits_uint_acc d : forall p k,
  Int.digits (DecimalString.NilEmpty.string_of_uint d) false k (Z.pos p)
  = Some (Z.pos (Pos.of_uint_acc d p), (k + Decimal.nb_digits d)%nat).
Proof.
  uint_cases d IH; intros p k;
    cbn [DecimalString.NilEmpty.string_of_uint Pos.of_uint_acc Decimal.nb_digits];
    [simpl; do 2 f_equal; lia| ..];
    (erewrite digits_digit_pos;
     [rewrite IH; apply f_equal, f_equal2; [reflexivity | lia]
     | reflexivity | vm_compute Z.sub; lia]).
Qed.

(** [Int.digits] on the digits of a numeral, from the start. *)
Lemma digits_uint d prev k :
  d <> Decimal.Nil ->
  Int.digits (DecimalString.NilEmpty.string_of_uint d) prev k 0
  = Some (Z.of_N (Pos.of_uint d), (k + Decimal.nb_digits d)%nat).
Proof.
  revert prev k.
  uint_cases d IH; intros prev k Hd; [contradiction| ..];
    cbn [DecimalString.NilEmpty.string_of_uint Pos.of_uint Decimal.nb_digits];
    (erewrite digits_digit; [|reflexivity]);
    match goal with
    | |- Int.digits _ _ _ ?a = _ =>
        let a' := eval vm_compute in a in change a with a'
    end;
    try (rewrite digits_uint_acc; cbn [Z.of_N]; do 2 f_equal; lia).
  destruct d; try (rewrite IH by discriminate; do 2 f_equal; lia).
  simpl. do 2 f_equal. lia.
Qed.

Section Numerals.
Context `{py : Interpreter}.

(** [int] reads the numeral of [n] as [n], when the numeral is short
    enough to fall under no limit of the interpreter. *)
Lemma int_decimal_numeral n :
  (String.length (decimal_numeral n) <= Int.str_digits_check_threshold)%nat ->
  Int.int (decimal_numeral n) = Some n.
Proof.
  unfold decimal_numeral. intros Hlen.
  assert (Hlimit : forall k, (k <= Int.str_digits_check_threshold)%nat ->
                             Int.exceeds_limit k = false).
  { intros k Hk. unfold Int.exceeds_limit.
    now rewrite (proj2 (Nat.ltb_ge _ _) Hk). }
  destruct n as [|p|p].
  - reflexivity.
  - cbn [Z.to_int DecimalString.NilZero.string_of_int] in *.
    pose proof (DecimalPos.Unsigned.to_uint_nonnil p) as Hnil.
    pose proof (DecimalPos.Unsigned.of_to p) as Hval.
    set (d := Pos.to_uint p) in *.
    assert (Hs : DecimalString.NilZero.string_of_uint d
                 = DecimalString.NilEmpty.string_of_uint d)
      by now destruct d.
    rewrite Hs in *. rewrite uint_length in Hlen.
    unfold Int.int. rewrite strip_by_id by (intros c Hc; now apply uint_chars in Hc).
    assert (Hsign : Int.split_sign (DecimalString.NilEmpty.string_of_uint d)
                    = (false, DecimalString.NilEmpty.string_of_uint d))
      by now destruct d.
    rewrite Hsign, (digits_uint d true 0 Hnil), Hval.
    now rewrite Hlimit.
  - cbn [Z.to_int DecimalString.NilZero.string_of_int] in *.
    pose proof (DecimalPos.Unsigned.to_uint_nonnil p) as Hnil.
    pose proof (DecimalPos.Unsigned.of_to p) as Hval.
    set (d := Pos.to_uint p) in *.
    assert (Hs : DecimalString.NilZero.string_of_uint d
                 = DecimalString.NilEmpty.string_of_uint d)
      by now destruct d.
    rewrite Hs in *. cbn [String.length] in Hlen. rewrite uint_length in Hlen.
    unfold Int.int. rewrite strip_by_id.
    + cbn [Int.split_sign].
      rewrite (digits_uint d true 0 Hnil), Hval.
      rewrite Hlimit by lia. reflexivity.
    + intros c [<-|Hc]; [reflexivity | now apply uint_chars in Hc].
Qed.

(** X12. An age typed as the decimal numeral of an integer [n], with
    or without whitespace around it, is read as [n]: the form is
    accepted with the age [n] when [n] is positive and refused with
    [InvalidAge] when it is not. The numeral has at most 640 characters,
    so that no limit of the interpreter applies. *)
Theorem decimal_age g fn ln em ag n :
  raw_fields g fn ln em ag ->
  Str.strip fn <> "" /\ Str.strip ln <> "" /\ Str.strip em <> "" ->
  occurs "@" (Str.strip em) /\ occurs "." (Str.strip em) ->
  Str.strip ag = decimal_numeral n ->
  (String.length (decimal_numeral n) <= 640)%nat ->
  parse_form_data g =
    (if n <=? 0 then Raise InvalidAge
     else Return {| first_name := Str.strip fn;
                    last_name := Str.strip ln;
                    email := Str.strip em;
                    age := n;
                    comments := Str.strip (text_widget g) |},
     g).
Proof.
  intros Hraw (Hfn & Hln & Hem) He Hag Hlen.
  pose proof (int_decimal_numeral n Hlen) as Hint.
  assert (Hne : Str.strip ag <> "").
  { rewrite Hag. intros Hempty. rewrite Hempty in Hint. discriminate Hint. }
  rewrite (parse_form_data_raw _ _ _ _ _ Hraw).
  rewrite (proj2 (rule_required_false fn ln em ag)) by tauto.
  rewrite (proj2 (rule_email_false em) He).
  rewrite Hag, Hint. now destruct (n <=? 0).
Qed.

End Numerals.

(** ** The further properties at concrete forms *)

(** A dictionary without the e-mail and the age entry. *)
Lemma missing_label_KeyError_witness :
  let g := {| variables := {[ "Vorname" := "Anna"; "Nachname" := "Muster" ]};
              text_widget := "Hallo";
              dialogs := [] |} in
  parse_form_data (py := cpython_default) g = (Raise (KeyError "E-Mail"), g)
  /\ handle_submit (py := cpython_default) g = (Raise (KeyError "E-Mail"), g).
Proof.
  intros g.
  apply (missing_label_KeyError (py := cpython_default) g "E-Mail").
  reflexivity.
Defined.

(** Scenario C gives the error dialog, Scenario A the confirmation. *)
Lemma submit_shows_one_dialog_witness :
  let g := filled "Anna" "Muster" "annaexample.com" "30" "" in
  (exists msg,
     (ValueError msg = MissingRequiredField
      \/ ValueError msg = InvalidEmailFormat
      \/ ValueError msg = InvalidAge)
     /\ handle_submit (py := cpython_default) g =
          (Return tt,
           {| variables := variables g;
              text_widget := text_widget g;
              dialogs := dialogs g ++ [showerror_call "Fehler" msg] |}))
  \/
  (exists data,
     fst (parse_form_data (py := cpython_default) g) = Return data
     /\ handle_submit (py := cpython_default) g =
          (Return tt,
           {| variables := (fun _ : string => "") <$> variables g;
              text_widget := "";
              dialogs := dialogs g
                         ++ [showinfo_call "Erfolg" (success_message data)] |})).
Proof.
  intros g.
  apply (submit_shows_one_dialog (py := cpython_default) g
           "Anna" "Muster" "annaexample.com" "30").
  apply raw_fields_filled.
Defined.

(** The record of a form typed with spaces around every input. *)
Lemma returned_record_is_valid_witness :
  let r := {| first_name := "Anna";
              last_name := "Muster";
              email := "anna@example.com";
              age := 30;
              comments := "Hallo" |} in
  first_name r <> "" /\ last_name r <> "" /\ email r <> ""
  /\ occurs "@" (email r) /\ occurs "." (email r)
  /\ 0 < age r
  /\ Str.strip (first_name r) = first_name r
  /\ Str.strip (last_name r) = last_name r
  /\ Str.strip (email r) = email r
  /\ Str.strip (comments r) = comments r.
Proof.
  intros r.
  apply (returned_record_is_valid (py := cpython_default)
           (filled " Anna " " Muster " " anna@example.com " " 30 " " Hallo ")).
  reflexivity.
Defined.

(** The exception of Scenario B, and the exception of a dictionary
    without the age entry. *)
Lemma parse_form_data_raises_witness :
  let g1 := filled "Anna" "Muster" "anna@example.com" "-5" "" in
  let g2 := {| variables := {[ "Vorname" := "Anna"; "Nachname" := "Muster";
                               "E-Mail" := "anna@example.com" ]};
               text_widget := "";
               dialogs := [] |} in
  (((InvalidAge = MissingRequiredField \/ InvalidAge = InvalidEmailFormat
     \/ InvalidAge = InvalidAge)
    /\ exists fn ln em ag, raw_fields g1 fn ln em ag)
   \/ (exists k,
         InvalidAge = KeyError k
         /\ (k = "Vorname" \/ k = "Nachname" \/ k = "E-Mail" \/ k = "Alter")
         /\ variables g1 !! k = None))
  /\
  (((KeyError "Alter" = MissingRequiredField
     \/ KeyError "Alter" = InvalidEmailFormat
     \/ KeyError "Alter" = InvalidAge)
    /\ exists fn ln em ag, raw_fields g2 fn ln em ag)
   \/ (exists k,
         KeyError "Alter" = KeyError k
         /\ (k = "Vorname" \/ k = "Nachname" \/ k = "E-Mail" \/ k = "Alter")
         /\ variables g2 !! k = None)).
Proof.
  intros g1 g2. split.
  - apply (parse_form_data_raises (py := cpython_default) g1). reflexivity.
  - apply (parse_form_data_raises (py := cpython_default) g2). reflexivity.
Defined.

(** Scenario A typed with spaces, tabs and newlines around the inputs. *)
Lemma surrounding_whitespace_ignored_witness :
  fst (parse_form_data (py := cpython_default)
         (filled "Anna" "Muster" "anna@example.com" "30" "Hallo"))
  = fst (parse_form_data (py := cpython_default)
           (filled "  Anna  " (String "009" "Muster") "anna@example.com "
                   (" 30" ++ String "010" EmptyString) "  Hallo ")).
Proof.
  apply (surrounding_whitespace_ignored (py := cpython_default)
           (filled "  Anna  " (String "009" "Muster") "anna@example.com "
                   (" 30" ++ String "010" EmptyString) "  Hallo ")
           (filled "Anna" "Muster" "anna@example.com" "30" "Hallo")
           "  Anna  " (String "009" "Muster") "anna@example.com "
           (" 30" ++ String "010" EmptyString)).
  - apply raw_fields_filled.
  - repeat split.
  - reflexivity.
Defined.

(** Scenario A submitted twice. *)
Lemma submit_twice_witness :
  let g := filled "Anna" "Muster" "anna@example.com" "30" "" in
  bind (handle_submit (py := cpython_default))
       (fun _ => handle_submit (py := cpython_default)) g
  = (Return tt,
     {| variables := build_form_fields;
        text_widget := "";
        dialogs :=
          [showinfo_call "Erfolg"
             ("Vielen Dank, Anna Muster!" ++ String "010" (String "010" "")
              ++ "Wir haben Ihre Daten erhalten und melden uns unter "
              ++ "anna@example.com.");
           showerror_call "Fehler"
             ("Bitte f" ++ String "252" "llen Sie alle Pflichtfelder aus.")] |}).
Proof.
  intros g.
  rewrite (submit_twice (py := cpython_default) g
             "Anna" "Muster" "anna@example.com" "30"
             {| first_name := "Anna";
                last_name := "Muster";
                email := "anna@example.com";
                age := 30;
                comments := "" |}
             (raw_fields_filled _ _ _ _ _) eq_refl).
  reflexivity.
Defined.

(** A valid form reset and then submitted. *)
Lemma submit_after_reset_witness :
  let g := filled "Anna" "Muster" "anna@example.com" "30" "Hallo" in
  bind reset_form (fun _ => handle_submit (py := cpython_default)) g
  = (Return tt,
     {| variables := build_form_fields;
        text_widget := "";
        dialogs :=
          [showerror_call "Fehler"
             ("Bitte f" ++ String "252" "llen Sie alle Pflichtfelder aus.")] |}).
Proof.
  intros g.
  rewrite (submit_after_reset (py := cpython_default) g
             "Anna" "Muster" "anna@example.com" "30"
             (raw_fields_filled _ _ _ _ _)).
  reflexivity.
Defined.

(** The ages 30 and -5 typed as numerals. *)
Lemma decimal_age_witness :
  parse_form_data (py := cpython_default)
    (filled "Anna" "Muster" "anna@example.com" " 30 " "")
  = (Return {| first_name := "Anna";
               last_name := "Muster";
               email := "anna@example.com";
               age := 30;
               comments := "" |},
     filled "Anna" "Muster" "anna@example.com" " 30 " "")
  /\
  parse_form_data (py := cpython_default)
    (filled "Anna" "Muster" "anna@example.com" "-5" "")
  = (Raise InvalidAge, filled "Anna" "Muster" "anna@example.com" "-5" "").
Proof.
  split.
  - refine (decimal_age (py := cpython_default) _ _ _ _ _ 30
              (raw_fields_filled "Anna" "Muster" "anna@example.com" " 30 " "")
              _ _ _ _);
      [present | has_chars | reflexivity | vm_compute; lia].
  - refine (decimal_age (py := cpython_default) _ _ _ _ _ (-5)
              (raw_fields_filled "Anna" "Muster" "anna@example.com" "-5" "")
              _ _ _ _);
      [present | has_chars | reflexivity | vm_compute; lia].
Defined.

(** ** Base-10 literals *)

Lemma str_app_cons a (s t : string) : String a s ++ t = String a (s ++ t).
Proof. reflexivity. Qed.

Lemma str_app_assoc (s1 s2 s3 : string) :
  (s1 ++ s2) ++ s3 = s1 ++ (s2 ++ s3).
Proof.
  induction s1 as [|a s1 IH]; [reflexivity|].
  now rewrite !str_app_cons, IH.
Qed.

Lemma str_app_empty_r (s : string) : s ++ EmptyString = s.
Proof.
  induction s as [|a s IH]; [reflexivity|].
  now rewrite str_app_cons, IH.
Qed.

Lemma occurs_app c s1 s2 :
  occurs c (s1 ++ s2) <-> occurs c s1 \/ occurs c s2.
Proof.
  induction s1 as [|a s1 IH]; [cbn; tauto|].
  rewrite str_app_cons. cbn [occurs]. rewrite IH. tauto.
Qed.

(** The digits [Int.digit_value] knows are the ten of the table. *)
Lemma digit_value_decimal c d :
  Int.digit_value c = Some d <-> decimal_digit c d.
Proof.
  unfold decimal_digit, decimal_digits. split.
  - destruct c as [[] [] [] [] [] [] [] []]; intros Hd;
      try discriminate Hd; injection Hd as <-;
      cbn; repeat (first [left; reflexivity | right]).
  - cbn [In]. intros Hin.
    repeat (destruct Hin as [Hin|Hin];
            [injection Hin as <- <-; reflexivity|]).
    contradiction.
Qed.

Lemma decimal_digit_no_sign c d :
  decimal_digit c d -> c <> "-"%char /\ c <> "+"%char /\ c <> "_"%char.
Proof.
  intros Hd. apply digit_value_decimal in Hd.
  repeat split; intros ->; discriminate Hd.
Qed.

(** [Int.digits] accepts every digit string. *)
Lemma digits_complete s v k :
  digit_string s v k ->
  forall s', Int.digits (s ++ s') true 0 0 = Int.digits s' false k v.
Proof.
  induction 1 as [c d Hd|s v k c d _ IH Hd|s v k c d _ IH Hd]; intros s';
    apply digit_value_decimal in Hd.
  - change (String c EmptyString ++ s') with (String c s').
    now rewrite (digits_digit _ _ _ _ _ _ Hd).
  - rewrite str_app_assoc, IH.
    change (String c EmptyString ++ s') with (String c s').
    now rewrite (digits_digit _ _ _ _ _ _ Hd).
  - rewrite str_app_assoc, IH.
    change (String "_" (String c EmptyString) ++ s')
      with (String "_" (String c s')).
    change (Int.digits (String "_" (String c s')) false k v)
      with (Int.digits (String c s') true k v).
    now rewrite (digits_digit _ _ _ _ _ _ Hd).
Qed.

(** What [Int.digits] accepts behind a digit string is a digit string. *)
Lemma digits_sound_from s : forall pre v0 k0 v k,
  digit_string pre v0 k0 ->
  (Int.digits s false k0 v0 = Some (v, k) -> digit_string (pre ++ s) v k)
  /\ (Int.digits s true k0 v0 = Some (v, k) ->
      digit_string (pre ++ String "_" s) v k).
Proof.
  induction s as [|c s IH]; intros pre v0 k0 v k Hpre.
  - split; [|discriminate]. intros [= <- <-]. now rewrite str_app_empty_r.
  - cbn [Int.digits]. destruct (Ascii.eqb c "_") eqn:Hc.
    + apply Ascii.eqb_eq in Hc. subst c. split; [|discriminate].
      intros Hd. now apply (IH pre v0 k0 v k Hpre).
    + destruct (Int.digit_value c) as [d|] eqn:Hv;
        [|split; discriminate].
      apply digit_value_decimal in Hv. split; intros Hd.
      * pose proof (digit_next _ _ _ _ _ Hpre Hv) as Hpre'.
        apply (IH _ _ _ v k) in Hpre' as [Hnext _].
        specialize (Hnext Hd). now rewrite str_app_assoc in Hnext.
      * pose proof (digit_after_underscore _ _ _ _ _ Hpre Hv) as Hpre'.
        apply (IH _ _ _ v k) in Hpre' as [Hnext _].
        specialize (Hnext Hd). now rewrite str_app_assoc in Hnext.
Qed.

(** [Int.digits] accepts exactly the digit strings, with their value
    and their number of digits. *)
Lemma digits_digit_string s v k :
  Int.digits s true 0 0 = Some (v, k) <-> digit_string s v k.
Proof.
  split.
  - destruct s as [|c s]; [discriminate|]. cbn [Int.digits].
    destruct (Ascii.eqb c "_"); [discriminate|].
    destruct (Int.digit_value c) as [d|] eqn:Hv; [|discriminate].
    apply digit_value_decimal in Hv. intros Hd.
    pose proof (digit_first _ _ Hv) as Hpre.
    apply (digits_sound_from s _ _ _ v k) in Hpre as [Hnext _].
    exact (Hnext Hd).
  - intros Hs. pose proof (digits_complete _ _ _ Hs EmptyString) as Hd.
    now rewrite str_app_empty_r in Hd.
Qed.

Lemma digit_string_head s v k :
  digit_string s v k ->
  exists c d s', s = String c s' /\ decimal_digit c d.
Proof.
  induction 1 as [c d Hd|s v k c d _ IH Hd|s v k c d _ IH Hd].
  - now exists c, d, EmptyString.
  - destruct IH as (c0 & d0 & s' & -> & Hd0). now eexists c0, d0, _.
  - destruct IH as (c0 & d0 & s' & -> & Hd0). now eexists c0, d0, _.
Qed.

Lemma digit_string_chars s v k :
  digit_string s v k ->
  forall c, occurs c s -> c = "_"%char \/ exists d, decimal_digit c d.
Proof.
  induction 1 as [c d Hd|s v k c d _ IH Hd|s v k c d _ IH Hd]; intros a Ha.
  - destruct Ha as [<-|[]]. right. now exists d.
  - apply occurs_app in Ha as [Ha|[<-|[]]]; [now apply IH|].
    right. now exists d.
  - apply occurs_app in Ha as [Ha|[<-|[<-|[]]]];
      [now apply IH | now left | right; now exists d].
Qed.

(** The sign that [Int.split_sign] takes off. *)
Lemma split_sign_cases t :
  (exists r, t = String "-" r /\ Int.split_sign t = (true, r))
  \/ (exists r, t = String "+" r /\ Int.split_sign t = (false, r))
  \/ ((forall r, t <> String "-" r) /\ (forall r, t <> String "+" r)
      /\ Int.split_sign t = (false, t)).
Proof.
  destruct t as [|a r].
  - right. right. repeat split; discriminate.
  - destruct a as [[] [] [] [] [] [] [] []];
      first [ left; exists r; split; reflexivity
            | right; left; exists r; split; reflexivity
            | right; right; repeat split; discriminate ].
Qed.

Lemma rstrip_by_sub (p q : ascii -> bool) s :
  (forall c, q c = true -> p c = true) ->
  Str.rstrip_by q (Str.rstrip_by p s) = Str.rstrip_by p s.
Proof.
  intros Hsub. induction s as [|a s IH]; [reflexivity|]. simpl.
  destruct (Str.rstrip_by p s) as [|b r] eqn:Hr.
  - destruct (p a) eqn:Hp; [reflexivity|]. simpl.
    destruct (q a) eqn:Hq; [|reflexivity].
    apply Hsub in Hq. congruence.
  - change (Str.rstrip_by q (String a (String b r)))
      with (match Str.rstrip_by q (String b r) with
            | EmptyString => if q a then EmptyString else String a EmptyString
            | String c t => String a (String c t)
            end).
    now rewrite IH.
Qed.

(** A trimmed text has no whitespace left that a narrower trim takes off. *)
Lemma strip_by_sub (p q : ascii -> bool) s :
  (forall c, q c = true -> p c = true) ->
  Str.strip_by q (Str.strip_by p s) = Str.strip_by p s.
Proof.
  intros Hsub. unfold Str.strip_by.
  destruct (Str.lstrip_by p s) as [|a t] eqn:Hl; [reflexivity|].
  pose proof (lstrip_by_head _ _ _ _ Hl) as Hp.
  destruct (rstrip_by_keeps_head p a t Hp) as [r Hr].
  rewrite Hr. cbn [Str.lstrip_by].
  destruct (q a) eqn:Hq; [apply Hsub in Hq; congruence|].
  rewrite <- Hr. now apply rstrip_by_sub.
Qed.

(** [int] takes no whitespace off a text that [strip] has trimmed. *)
Lemma int_strip_of_strip s :
  Str.strip_by Int.isspace (Str.strip s) = Str.strip s.
Proof.
  apply strip_by_sub. intros c. unfold Int.isspace, Str.isspace.
  set (n := N_of_ascii c). intros Hc.
  apply orb_true_iff in Hc as [Hc|Hc];
    [|rewrite Hc; now rewrite orb_true_r].
  apply orb_true_iff in Hc as [Hc|Hc];
    [|rewrite Hc; now rewrite orb_true_r].
  apply orb_true_iff in Hc as [Hc|Hc]; [now rewrite Hc|].
  apply N.eqb_eq in Hc. now rewrite Hc.
Qed.

Lemma ones_snoc k : ones (S k) = ones k ++ String "1" EmptyString.
Proof.
  induction k as [|k IH]; [reflexivity|].
  cbn [ones] in *. now rewrite str_app_cons, <- IH.
Qed.

(** A text of digits ["1"] is a digit string of a positive number. *)
Lemma ones_digit_string k :
  exists v, 0 < v /\ digit_string (ones (S k)) v (S k).
Proof.
  induction k as [|k (v & Hv & Hs)].
  - exists 1. split; [lia|]. apply digit_first. cbn. tauto.
  - exists (10 * v + 1). split; [lia|]. rewrite ones_snoc.
    apply digit_next; [exact Hs|]. cbn. tauto.
Qed.

Section Literals.
Context `{py : Interpreter}.

Lemma within_digit_limit_iff k :
  Int.exceeds_limit k = false <-> within_digit_limit k.
Proof.
  unfold Int.exceeds_limit, Int.str_digits_check_threshold, within_digit_limit.
  destruct (Nat.ltb_spec 640 k), (Nat.ltb_spec 0 int_max_str_digits),
    (Nat.ltb_spec int_max_str_digits k);
    cbn; split; intros; first [lia | discriminate | reflexivity].
Qed.

(** On a text without whitespace at its ends [int] returns [n] exactly
    when the text is a base-10 literal of [n] that falls under no limit
    of the interpreter. *)
Lemma int_literal_iff t n :
  Str.strip_by Int.isspace t = t ->
  Int.int t = Some n <->
  exists k, int_literal t n k /\ within_digit_limit k.
Proof.
  intros Ht. unfold Int.int. rewrite Ht. clear Ht. split.
  - destruct (split_sign_cases t)
      as [(r & -> & Hs)|[(r & -> & Hs)|(_ & _ & Hs)]]; rewrite Hs;
      (destruct (Int.digits _ true 0 0) as [[v k]|] eqn:Hd; [|discriminate]);
      (destruct (Int.exceeds_limit k) eqn:Hl; [discriminate|]);
      intros [= <-]; exists k;
      apply digits_digit_string in Hd; apply within_digit_limit_iff in Hl;
      (split; [|exact Hl]).
    + now apply literal_minus.
    + now apply literal_plus.
    + now apply literal_unsigned.
  - intros (k & Hlit & Hlim). apply within_digit_limit_iff in Hlim.
    destruct Hlit as [s v k Hs|s v k Hs|s v k Hs].
    + destruct (digit_string_head _ _ _ Hs) as (c & d & s' & -> & Hc).
      apply decimal_digit_no_sign in Hc as (Hm & Hp & _).
      destruct (split_sign_cases (String c s'))
        as [(r & [= -> _] & _)|[(r & [= -> _] & _)|(_ & _ & Hsign)]];
        [now destruct Hm | now destruct Hp|].
      rewrite Hsign. apply digits_digit_string in Hs.
      now rewrite Hs, Hlim.
    + cbn [Int.split_sign]. apply digits_digit_string in Hs.
      now rewrite Hs, Hlim.
    + cbn [Int.split_sign]. apply digits_digit_string in Hs.
      now rewrite Hs, Hlim.
Qed.

(** C4. On a form that passes the required-field and the e-mail check,
    the trimmed age text is read as a base-10 literal (digits with
    single underscores allowed between them, behind an optional sign),
    and the validation fails with [InvalidAge] exactly when the text is
    no such literal, or is a literal with more digits than the
    interpreter allows, or its value is at most zero. A literal of a
    positive integer within the limit is accepted with that integer as
    age; so is the decimal numeral of a positive integer of at most 640
    characters, and the numeral of an integer that is not positive is
    refused. The age text ["0"], every age text that starts with a minus
    sign and every age text with a character that is no digit, sign or
    underscore give [InvalidAge]. *)
Theorem invalid_age g fn ln em ag :
  raw_fields g fn ln em ag ->
  Str.strip fn <> "" /\ Str.strip ln <> "" /\
  Str.strip em <> "" /\ Str.strip ag <> "" ->
  occurs "@" (Str.strip em) /\ occurs "." (Str.strip em) ->
  (parse_form_data g = (Raise InvalidAge, g)
   <-> ~ exists n k,
           int_literal (Str.strip ag) n k /\ within_digit_limit k /\ 0 < n)
  /\ (forall n k,
        int_literal (Str.strip ag) n k -> within_digit_limit k -> 0 < n ->
        parse_form_data g =
          (Return {| first_name := Str.strip fn;
                     last_name := Str.strip ln;
                     email := Str.strip em;
                     age := n;
                     comments := Str.strip (text_widget g) |},
           g))
  /\ (forall n,
        Str.strip ag = decimal_numeral n ->
        (String.length (decimal_numeral n) <= 640)%nat ->
        parse_form_data g =
          (if n <=? 0 then Raise InvalidAge
           else Return {| first_name := Str.strip fn;
                          last_name := Str.strip ln;
                          email := Str.strip em;
                          age := n;
                          comments := Str.strip (text_widget g) |},
           g))
  /\ (Str.strip ag = "0" -> parse_form_data g = (Raise InvalidAge, g))
  /\ (forall r, Str.strip ag = String "-" r ->
      parse_form_data g = (Raise InvalidAge, g))
  /\ (forall c, occurs c (Str.strip ag) ->
      (forall d, ~ decimal_digit c d) ->
      c <> "_"%char -> c <> "+"%char -> c <> "-"%char ->
      parse_form_data g = (Raise InvalidAge, g)).
Proof.
  intros Hraw Hr He. rewrite (parse_form_data_raw _ _ _ _ _ Hraw).
  apply rule_required_false in Hr. apply rule_email_false in He.
  rewrite Hr, He. clear Hr He Hraw.
  pose proof (fun n => int_literal_iff (Str.strip ag) n (int_strip_of_strip ag))
    as Hint.
  assert (Hpos : forall n k,
             int_literal (Str.strip ag) n k -> within_digit_limit k -> 0 < n ->
             Int.int (Str.strip ag) = Some n /\ (n <=? 0) = false).
  { intros n k Hlit Hlim Hn. split; [|now apply Z.leb_gt].
    apply Hint. now exists k. }
  assert (Hnone : (~ exists n k, int_literal (Str.strip ag) n k
                                 /\ within_digit_limit k /\ 0 < n) ->
                  match Int.int (Str.strip ag) with
                  | Some n => (n <=? 0) = true
                  | None => True
                  end).
  { intros Hno. destruct (Int.int (Str.strip ag)) as [n|] eqn:Hi; [|exact I].
    apply Z.leb_le. destruct (Z.le_gt_cases n 0) as [Hle|Hgt]; [exact Hle|].
    destruct Hno. destruct (proj1 (Hint n) eq_refl) as (k & Hlit & Hlim).
    exists n, k. repeat split; [assumption..|lia]. }
  split; [|split; [|split; [|split; [|split]]]].
  - split.
    + intros Hfail (n & k & Hlit & Hlim & Hn).
      destruct (Hpos n k Hlit Hlim Hn) as [Hi Hgt].
      rewrite Hi, Hgt in Hfail. discriminate Hfail.
    + intros Hno. apply Hnone in Hno.
      destruct (Int.int (Str.strip ag)) as [n|]; [|reflexivity].
      now rewrite Hno.
  - intros n k Hlit Hlim Hn.
    destruct (Hpos n k Hlit Hlim Hn) as [Hi Hgt]. now rewrite Hi, Hgt.
  - intros n Hag Hlen. rewrite Hag, (int_decimal_numeral n Hlen).
    now destruct (n <=? 0).
  - clear Hint Hpos Hnone. intros Hag. rewrite Hag. reflexivity.
  - clear Hint Hpos Hnone. intros r Hag. rewrite Hag.
    destruct (Int.int (String "-" r)) as [n|] eqn:Hi; [|reflexivity].
    apply int_minus in Hi. apply Z.leb_le in Hi. now rewrite Hi.
  - intros c Hc Hdigit Hus Hplus Hminus.
    assert (Hno : ~ exists n k, int_literal (Str.strip ag) n k
                                /\ within_digit_limit k /\ 0 < n).
    { intros (n & k & Hlit & _ & _).
      assert (Hin : forall s v j, digit_string s v j -> occurs c s -> False).
      { intros s v j Hs Hcs.
        destruct (digit_string_chars _ _ _ Hs c Hcs) as [->|(d & Hd)];
          [now destruct Hus | exact (Hdigit d Hd)]. }
      destruct Hlit as [s v j Hs|s v j Hs|s v j Hs].
      - exact (Hin _ _ _ Hs Hc).
      - destruct Hc as [<-|Hc]; [now destruct Hplus | exact (Hin _ _ _ Hs Hc)].
      - destruct Hc as [<-|Hc]; [now destruct Hminus | exact (Hin _ _ _ Hs Hc)]. }
    apply Hnone in Hno.
    destruct (Int.int (Str.strip ag)) as [n|]; [|reflexivity].
    now rewrite Hno.
Qed.

End Literals.

(** An age with a sign and an underscore and an age written as a plain
    numeral are accepted; Scenario B, the age ["0"] and an age that is
    no number are refused. *)
Lemma invalid_age_witness :
  parse_form_data (py := cpython_default)
    (filled "Anna" "Muster" "anna@example.com" "+1_000" "")
  = (Return {| first_name := "Anna";
               last_name := "Muster";
               email := "anna@example.com";
               age := 1000;
               comments := "" |},
     filled "Anna" "Muster" "anna@example.com" "+1_000" "")
  /\
  parse_form_data (py := cpython_default)
    (filled "Anna" "Muster" "anna@example.com" "30" "")
  = (Return {| first_name := "Anna";
               last_name := "Muster";
               email := "anna@example.com";
               age := 30;
               comments := "" |},
     filled "Anna" "Muster" "anna@example.com" "30" "")
  /\
  parse_form_data (py := cpython_default)
    (filled "Anna" "Muster" "anna@example.com" "-5" "")
  = (Raise InvalidAge, filled "Anna" "Muster" "anna@example.com" "-5" "")
  /\
  parse_form_data (py := cpython_default)
    (filled "Anna" "Muster" "anna@example.com" "0" "")
  = (Raise InvalidAge, filled "Anna" "Muster" "anna@example.com" "0" "")
  /\
  parse_form_data (py := cpython_default)
    (filled "Anna" "Muster" "anna@example.com" "abc" "")
  = (Raise InvalidAge, filled "Anna" "Muster" "anna@example.com" "abc" "").
Proof.
  assert (Hdigit : forall c d, In (c, d) decimal_digits -> decimal_digit c d)
    by (intros c d Hin; exact Hin).
  split; [|split; [|split; [|split]]].
  - destruct (invalid_age (py := cpython_default) _ _ _ _ _
                (raw_fields_filled "Anna" "Muster" "anna@example.com" "+1_000" ""))
      as (_ & Haccept & _); [present | has_chars|].
    apply (Haccept 1000 4%nat); [|left; lia | lia].
    apply (literal_plus "1_000" 1000 4).
    apply (digit_next "1_00" 100 3 "0" 0); [|apply Hdigit; cbn; tauto].
    apply (digit_next "1_0" 10 2 "0" 0); [|apply Hdigit; cbn; tauto].
    apply (digit_after_underscore "1" 1 1 "0" 0); [|apply Hdigit; cbn; tauto].
    apply (digit_first "1" 1). apply Hdigit. cbn. tauto.
  - destruct (invalid_age (py := cpython_default) _ _ _ _ _
                (raw_fields_filled "Anna" "Muster" "anna@example.com" "30" ""))
      as (_ & _ & Hnumeral & _); [present | has_chars|].
    apply (Hnumeral 30); [reflexivity | vm_compute; lia].
  - destruct (invalid_age (py := cpython_default) _ _ _ _ _
                (raw_fields_filled "Anna" "Muster" "anna@example.com" "-5" ""))
      as (_ & _ & _ & _ & Hminus & _); [present | has_chars|].
    now apply (Hminus "5").
  - destruct (invalid_age (py := cpython_default) _ _ _ _ _
                (raw_fields_filled "Anna" "Muster" "anna@example.com" "0" ""))
      as (_ & _ & _ & Hzero & _); [present | has_chars|].
    now apply Hzero.
  - destruct (invalid_age (py := cpython_default) _ _ _ _ _
                (raw_fields_filled "Anna" "Muster" "anna@example.com" "abc" ""))
      as (_ & _ & _ & _ & _ & Hchar); [present | has_chars|].
    apply (Hchar "a"%char); [now left | | discriminate..].
    intros d Hd. apply digit_value_decimal in Hd. discriminate Hd.
Defined.

(** A numeral of 4301 digits: the literal of a positive integer, and
    yet refused as age under CPython's default limit of 4300 digits. *)
Lemma invalid_age_counterexample :
  let g := filled "Anna" "Muster" "anna@example.com" (ones 4301) "" in
  (exists n, int_literal (ones 4301) n 4301 /\ 0 < n)
  /\ parse_form_data (py := cpython_default) g = (Raise InvalidAge, g).
Proof.
  split.
  - destruct (ones_digit_string 4300) as (v & Hv & Hs).
    exists v. split; [now apply literal_unsigned | exact Hv].
  - vm_compute. reflexivity.
Qed.
